(** * delfino toolbox: the lint and test commands

    A shallow embedding of [src/toolbox/commands/lint.py] and
    [src/toolbox/commands/test.py], with the properties of the
    orchestration and coverage-aggregation logic proved over it.

    Python [str] values are modelled as [string]; a character is a code
    point below 256, a range on which the regular-expression class [\d]
    is exactly the ten ASCII digits. *)

From Stdlib Require Import Ascii String List ZArith Lia Bool.
From stdpp Require Import base option list strings gmap pretty.

(** ** Python strings *)

Module PyStr.

Definition LF : ascii := "010"%char.
Definition DQUOTE : ascii := "034"%char.
Definition lf : string := String LF EmptyString.
Definition dquote : string := String DQUOTE EmptyString.

(** [all(p(c) for c in s)] *)
Fixpoint str_forall (p : ascii -> bool) (s : string) : bool :=
  match s with
  | EmptyString => true
  | String c r => p c && str_forall p r
  end.

(** [c != sep] *)
Definition not_char (sep : ascii) (c : ascii) : bool := negb (Ascii.eqb c sep).

(** [s.startswith(p)], returning what follows the prefix. *)
Fixpoint strip_prefix (p s : string) : option string :=
  match p, s with
  | EmptyString, _ => Some s
  | String a p', String b s' =>
      if Ascii.eqb a b then strip_prefix p' s' else None
  | String _ _, EmptyString => None
  end.

(** [sep.join(parts)] *)
Fixpoint join (sep : string) (parts : list string) : string :=
  match parts with
  | [] => ""
  | [x] => x
  | x :: rest => x +:+ sep +:+ join sep rest
  end.

(** [s.replace(old, new)] for a non-empty [old]: the non-overlapping
    occurrences of [old] are replaced from left to right. The fuel is
    the number of characters still to be scanned. *)
Fixpoint replace_fuel (fuel : nat) (old new s : string) : string :=
  match fuel with
  | O => s
  | S fuel' =>
      match strip_prefix old s with
      | Some r => new +:+ replace_fuel fuel' old new r
      | None =>
          match s with
          | EmptyString => EmptyString
          | String c r => String c (replace_fuel fuel' old new r)
          end
      end
  end.

Definition replace (old new s : string) : string :=
  replace_fuel (String.length s) old new s.

(** The text of [s] up to, and without, its first line feed. *)
Fixpoint rest_of_line (s : string) : string :=
  match s with
  | EmptyString => EmptyString
  | String c r => if Ascii.eqb c LF then EmptyString else String c (rest_of_line r)
  end.

(** [s.split(sep)] for a one-character separator. *)
Fixpoint split_on (sep : ascii) (s : string) : list string :=
  match s with
  | EmptyString => [EmptyString]
  | String c r =>
      if Ascii.eqb c sep then EmptyString :: split_on sep r
      else match split_on sep r with
           | l :: ls => String c l :: ls
           | [] => [String c EmptyString]
           end
  end.

(** [s.split("\n")]: the lines of [s]. *)
Definition lines (s : string) : list string := split_on LF s.

End PyStr.

(** ** The regular expression of [_get_total_coverage] *)

Module Regex.
Import PyStr.

(** [\d] *)
Definition is_digit (c : ascii) : bool :=
  (48 <=? nat_of_ascii c)%nat && (nat_of_ascii c <=? 57)%nat.

(** [[\d.]] *)
Definition in_class (c : ascii) : bool := is_digit c || Ascii.eqb c "."%char.

(** [([\d.]+%)] anchored at the head of [s]: the greedy repetition
    takes as many class characters as it can and gives them back one
    by one until a [%] follows. The result is the text of group 1. *)
Fixpoint match_pct (s : string) : option string :=
  match s with
  | EmptyString => None
  | String c r =>
      if in_class c then
        match match_pct r with
        | Some t => Some (String c t)
        | None =>
            match r with
            | String p _ => if Ascii.eqb p "%"%char then Some (String c "%") else None
            | EmptyString => None
            end
        end
      else None
  end.

(** [.*?([\d.]+%)] anchored at the head of [s]: the lazy repetition
    first tries the group where it stands and otherwise steps over one
    character, which [.] refuses when it is a line feed. *)
Fixpoint match_lazy (s : string) : option string :=
  match match_pct s with
  | Some t => Some t
  | None =>
      match s with
      | EmptyString => None
      | String c r => if Ascii.eqb c LF then None else match_lazy r
      end
  end.

(** [TOTAL.*?([\d.]+%)] anchored at the head of [s]. *)
Definition match_here (s : string) : option string :=
  match strip_prefix "TOTAL" s with
  | Some r => match_lazy r
  | None => None
  end.

(** [re.search(r"TOTAL.*?([\d.]+%)", s)], as [match.group(1)] when
    there is a match: the start positions are tried from left to
    right. *)
Fixpoint re_search (s : string) : option string :=
  match match_here s with
  | Some t => Some t
  | None =>
      match s with
      | EmptyString => None
      | String _ r => re_search r
      end
  end.

End Regex.

(** ** [pathlib] paths

    A path is modelled as a [PurePosixPath] by its [parts]: an absolute
    path starts with the part ["/"] (or ["//"]). Two paths name the
    same file when their parts are equal (no symbolic links, no [..]
    resolution). *)

Module Pathlib.
Import PyStr.

Abbreviation Path := (list string).

Definition is_root (part : string) : bool :=
  String.eqb part "/" || String.eqb part "//".

(** The root that a string operand starts with, if any: exactly two
    leading slashes are kept apart, as POSIX allows. *)
Definition root_of (s : string) : list string :=
  match s with
  | String "/" (String "/" (String "/" _)) => ["/"]
  | String "/" (String "/" _) => ["//"]
  | String "/" _ => ["/"]
  | _ => []
  end.

(** The parts of a string operand below its root: empty components and
    [.] components are dropped. *)
Definition parse_parts (s : string) : list string :=
  List.filter (fun x => negb (String.eqb x "" || String.eqb x "."))
    (split_on "/" s).

(** [p / s] *)
Definition truediv (p : Path) (s : string) : Path :=
  match root_of s with
  | [] => p ++ parse_parts s
  | r => r ++ parse_parts s
  end.

(** [str(p)] *)
Definition str (p : Path) : string :=
  match p with
  | [] => "."
  | r :: rest => if is_root r then r +:+ join "/" rest else join "/" p
  end.

(** [p.name] *)
Definition name (p : Path) : string :=
  match List.rev p with
  | [] => ""
  | l :: _ => if is_root l then "" else l
  end.

Definition valid_name (n : string) : bool :=
  negb (String.eqb n "" || String.eqb n ".")
  && str_forall (not_char "/") n.

(** [p.with_name(n)]; [None] stands for its [ValueError]. *)
Definition with_name (p : Path) (n : string) : option Path :=
  if String.eqb (name p) "" then None
  else if valid_name n then Some (List.removelast p ++ [n])
  else None.

End Pathlib.

Infix "</>" := Pathlib.truediv (at level 40, left associativity).

(** ** Effects: the file system, the console and the child processes *)

Module Effects.
Import PyStr Pathlib.

(** What a run leaves on the console and asks of its collaborators, in
    the order it happens. *)
Inductive event : Type :=
| EHeader (text : string) (level : option nat) (icon : option string)
| EEnsureReportsDir (dir : Path)
| ERun (cmd : string) (env : list (string * string))
| EPrint (text : string)
| ECPrint (text color : string)
| ESecho (text fg : string)
| EFormatMessages (text : string)
| ECopy (src dst : Path)
| EBrowser (url : string).

(** The exceptions the commands can end with. *)
Inductive exn : Type :=
| UnexpectedExit (cmd : string) (code : Z)
| RuntimeError (msg : string)
| ClickExit (code : Z)
| FileNotFoundError (p : Path)
| SameFileError (p : Path)
| ValueError.

Inductive result (A : Type) : Type :=
| Ok (a : A)
| Raise (e : exn).
Arguments Ok {A} a.
Arguments Raise {A} e.

(** The files (path to contents) and the events so far. *)
Record state : Type := mkState {
  fs : gmap (list string) string;
  trace : list event
}.

(** The collaborators the commands call but do not define: the child
    process that [invoke]'s [Context.run] starts, which gives an exit
    status and its standard output and may change files; [str.title];
    [Path.absolute]; and the names [click] gives to the commands
    [coverage_report] and [test_all]. *)
Class Externals : Type := {
  shell : string -> list (string * string) -> gmap (list string) string ->
          Z * string * gmap (list string) string;
  title : string -> string;
  absolute : Path -> Path;
  coverage_report_name : string;
  test_all_name : string
}.

Definition M (A : Type) : Type := state -> result A * state.

Definition ret {A : Type} (a : A) : M A := fun st => (Ok a, st).

Definition bind {A B : Type} (m : M A) (k : A -> M B) : M B :=
  fun st =>
    match m st with
    | (Ok a, st') => k a st'
    | (Raise e, st') => (Raise e, st')
    end.

Definition raise {A : Type} (e : exn) : M A := fun st => (Raise e, st).

Definition emit (e : event) : M unit :=
  fun st => (Ok tt, mkState (fs st) (trace st ++ [e])).

(** [try: body except Exception as e: handler(e) else: orelse] *)
Definition try_except_else {A : Type}
    (body : M A) (handler : exn -> M unit) (orelse : M unit) : M unit :=
  fun st =>
    match body st with
    | (Ok _, st') => orelse st'
    | (Raise e, st') => handler e st'
    end.

(** [try: body finally: final] *)
Definition try_finally {A : Type} (body : M A) (final : M unit) : M A :=
  fun st =>
    match body st with
    | (r, st') =>
        match final st' with
        | (Ok _, st'') => (r, st'')
        | (Raise e, st'') => (Raise e, st'')
        end
    end.

(** The events that a run from [st] to [st'] added. *)
Definition added (st st' : state) : list event :=
  drop (length (trace st)) (trace st').

(** The commands of the child processes among some events, in order. *)
Fixpoint commands_of (events : list event) : list string :=
  match events with
  | [] => []
  | ERun cmd _ :: rest => cmd :: commands_of rest
  | _ :: rest => commands_of rest
  end.

(** The copies among some events, in order, as (source, destination). *)
Fixpoint copies_of (events : list event) : list (Path * Path) :=
  match events with
  | [] => []
  | ECopy src dst :: rest => (src, dst) :: copies_of rest
  | _ :: rest => copies_of rest
  end.

Definition is_browser (e : event) : bool :=
  match e with
  | EBrowser _ => true
  | _ => false
  end.

(** [for x in xs: body(x)] *)
Fixpoint for_each {A : Type} (xs : list A) (body : A -> M unit) : M unit :=
  match xs with
  | [] => ret tt
  | x :: rest => bind (body x) (fun _ => for_each rest body)
  end.

End Effects.

Notation "x <- c1 ;;; c2" := (Effects.bind c1 (fun x => c2))
  (at level 100, c1 at next level, right associativity).
Notation "c1 ;;; c2" := (Effects.bind c1 (fun _ => c2))
  (at level 100, right associativity).

(** ** The collaborators of [toolbox.utils] and of the libraries *)

Module Utils.
Import PyStr Pathlib Effects.

(** [os.path.exists(p)] and [Path.exists] *)
Definition path_exists (p : Path) : M bool :=
  fun st => (Ok (bool_decide (is_Some (fs st !! p))), st).

(** Modelled from the spec: [read_contents] of [toolbox.utils], the
    text of a report file, which fails when the file is absent. *)
Definition read_contents (p : Path) : M string :=
  fun st =>
    match fs st !! p with
    | Some text => (Ok text, st)
    | None => (Raise (FileNotFoundError p), st)
    end.

(** Modelled from the spec: [format_messages] of [toolbox.utils], which
    shows the text of a report on the console. *)
Definition format_messages (text : string) : M unit := emit (EFormatMessages text).

(** Modelled from the spec: [print_header] of [toolbox.utils]. *)
Definition print_header (text : string) (level : option nat) (icon : option string) : M unit :=
  emit (EHeader text level icon).

(** Modelled from the spec: [ensure_reports_dir] of [toolbox.utils],
    which creates the reports directory when it is absent; it leaves
    every file as it is. *)
Definition ensure_reports_dir (reports_directory : Path) : M unit :=
  emit (EEnsureReportsDir reports_directory).

Definition print (text : string) : M unit := emit (EPrint text).
Definition cprint (text color : string) : M unit := emit (ECPrint text color).
Definition secho (text fg : string) : M unit := emit (ESecho text fg).

(** [ctx.run(cmd, env=env)] of [invoke], with its default [warn=False]:
    a non-zero exit status raises [UnexpectedExit]. The result is the
    captured standard output. The options [hide] and [pty] only change
    what the child may show on the terminal while it runs. *)
Definition ctx_run `{Externals} (cmd : string) (env : list (string * string)) : M string :=
  fun st =>
    match shell cmd env (fs st) with
    | (code, stdout, fs') =>
        let st' := mkState fs' (trace st ++ [ERun cmd env]) in
        if (code =? 0)%Z then (Ok stdout, st')
        else (Raise (UnexpectedExit cmd code), st')
    end.

(** [shutil.copy(src, dst)] *)
Definition shutil_copy (src dst : Path) : M unit :=
  fun st =>
    match fs st !! src with
    | None => (Raise (FileNotFoundError src), st)
    | Some text =>
        if decide (src = dst) then (Raise (SameFileError src), st)
        else (Ok tt, mkState (<[dst := text]> (fs st)) (trace st ++ [ECopy src dst]))
    end.

(** [webbrowser.open(url)] *)
Definition webbrowser_open (url : string) : M unit := emit (EBrowser url).

End Utils.

(** ** [toolbox/commands/lint.py] *)

Module Lint.
Import PyStr Pathlib Effects Utils.

(** [app_context.py_project_toml.project] *)
Record Project : Type := mkProject {
  source_directory : Path;
  tests_directory : Path;
  reports_directory : Path;
  root_directory : Path
}.

Section Commands.
Context `{Externals}.

Definition pydocstyle_cmd (project : Project) (report : Path) : string :=
  "pydocstyle " +:+ str (source_directory project) +:+ " > " +:+ str report.

Definition lint_pydocstyle (project : Project) : M unit :=
  print_header "documentation style" (Some 2) None ;;;
  ensure_reports_dir (reports_directory project) ;;;
  let report_pydocstyle_fpath := reports_directory project </> "pydocstyle-report.log" in
  try_finally
    (_ <- ctx_run (pydocstyle_cmd project report_pydocstyle_fpath) [] ;;; ret tt)
    (found <- path_exists report_pydocstyle_fpath ;;;
     if found : bool
     then text <- read_contents report_pydocstyle_fpath ;;; format_messages text
     else ret tt).

Definition pycodestyle_cmd (project : Project) (report : Path) : string :=
  let dirs := str (source_directory project) +:+ " " +:+ str (tests_directory project) in
  "pycodestyle --ignore=E501,W503,E231,E203,E402 "
  +:+ "--exclude=.svn,CVS,.bzr,.hg,.git,__pycache__,.tox,*_config_parser.py "
  +:+ dirs +:+ " > " +:+ str report.

Definition lint_pycodestyle (project : Project) : M unit :=
  print_header "code style (PEP8)" (Some 2) None ;;;
  ensure_reports_dir (reports_directory project) ;;;
  let report_pycodestyle_fpath := reports_directory project </> "pycodestyle-report.log" in
  try_finally
    (_ <- ctx_run (pycodestyle_cmd project report_pycodestyle_fpath) [] ;;; ret tt)
    (found <- path_exists report_pycodestyle_fpath ;;;
     if found : bool
     then text <- read_contents report_pycodestyle_fpath ;;; format_messages text
     else ret tt).

Definition pylint_cmd (source_dirs : list Path) (report_path pylintrc_fpath : Path) : string :=
  "pylint --rcfile " +:+ str pylintrc_fpath +:+ " "
  +:+ join " " (map str source_dirs) +:+ " > " +:+ str report_path.

(** The text of the success indicator; the check mark appears as the
    bytes of its UTF-8 encoding. *)
Definition no_issues : string := "✔ No issues found.".

Definition run_pylint (project : Project) (source_dirs : list Path)
    (report_path pylintrc_fpath : Path) : M unit :=
  print_header (join ", " (map str source_dirs)) (Some 3) None ;;;
  ensure_reports_dir (reports_directory project) ;;;
  try_except_else
    (ctx_run (pylint_cmd source_dirs report_path pylintrc_fpath) [])
    (fun runtime_error =>
       found <- path_exists report_path ;;;
       (if found : bool
        then text <- read_contents report_path ;;; print text
        else ret tt) ;;;
       raise runtime_error)
    (cprint no_issues "green").

Definition lint_pylint (project : Project) : M unit :=
  print_header "pylint" (Some 2) None ;;;
  run_pylint project
    [source_directory project]
    (reports_directory project </> "pylint-report.log")
    (root_directory project </> ".pylintrc") ;;;
  run_pylint project
    [tests_directory project]
    (reports_directory project </> "pylint-report-tests.log")
    (tests_directory project </> ".pylintrc").

Definition _COMMANDS : list (Project -> M unit) :=
  [lint_pylint; lint_pycodestyle; lint_pydocstyle].

(** [click_context.forward(command)]: the command's callback is called
    in the application context of the caller. *)
Definition forward (project : Project) (command : Project -> M unit) : M unit :=
  command project.

(** The magnifying glass of the header appears as its UTF-8 bytes. *)
Definition lint (project : Project) : M unit :=
  print_header "Linting" None (Some "🔎") ;;;
  for_each _COMMANDS (fun command => forward project command).

End Commands.
End Lint.

(** ** [toolbox/commands/test.py] *)

Module Tests.
Import PyStr Pathlib Effects Utils Regex.

(** [app_context.py_project_toml.tool.toolbox]; the tests directory may
    be left out of the configuration. *)
Record Toolbox : Type := mkToolbox {
  sources_directory : Path;
  tests_directory : option Path;
  reports_directory : Path;
  test_types : list string
}.

Section Commands.
Context `{Externals}.

Definition coverage_xml (toolbox : Toolbox) (name : string) : Path :=
  reports_directory toolbox </> ("coverage-" +:+ name +:+ ".xml").

(** [toolbox.reports_directory / f"coverage-{name}.dat"] *)
Definition coverage_dat_of (toolbox : Toolbox) (name : string) : Path :=
  reports_directory toolbox </> ("coverage-" +:+ name +:+ ".dat").

Definition pytest_cmd (toolbox : Toolbox) (tests : Path) (name : string)
    (maxfail : Z) (debug : bool) : string :=
  lf +:+ "        pytest "
  +:+ "            --cov=" +:+ str (sources_directory toolbox) +:+ " "
  +:+ "            --cov-report=" +:+ dquote +:+ "xml:"
  +:+ str (coverage_xml toolbox name) +:+ dquote +:+ " "
  +:+ "            --cov-branch -vv --maxfail=" +:+ pretty maxfail +:+ " "
  +:+ (if debug then "-s" else "")
  +:+ "            " +:+ str (tests </> name) +:+ lf
  +:+ "        ".

(** The body of [_run_tests]. The function is decorated with
    [handle_invoke_exceptions], which is defined outside these sources:
    [Raise e] is the exception that leaves the body and reaches the
    decorator, not the outcome of the decorated command. *)
Definition _run_tests (toolbox : Toolbox) (name : string) (maxfail : Z) (debug : bool) : M unit :=
  match tests_directory toolbox with
  | Some tests =>
      if bool_decide (name ∈ test_types toolbox) then
        print_header ("️Running " +:+ name +:+ " tests️") None (Some "🔎🐛") ;;;
        ensure_reports_dir (reports_directory toolbox) ;;;
        _ <- ctx_run (pytest_cmd toolbox tests name maxfail debug)
               [("COVERAGE_FILE", str (coverage_dat_of toolbox name))] ;;;
        ret tt
      else ret tt
  | None => ret tt
  end.

Definition test_unit (toolbox : Toolbox) (maxfail : Z) (debug : bool) : M unit :=
  _run_tests toolbox "unit" maxfail debug.

Definition test_integration (toolbox : Toolbox) (maxfail : Z) (debug : bool) : M unit :=
  _run_tests toolbox "integration" maxfail debug.

Definition coverage_report_cmd (coverage_dat : Path) : string :=
  lf +:+ "        export COVERAGE_FILE=" +:+ dquote +:+ str coverage_dat +:+ dquote +:+ lf
  +:+ "        coverage report".

Definition _get_total_coverage (coverage_dat : Path) : M string :=
  output <- ctx_run (coverage_report_cmd coverage_dat) [] ;;;
  match re_search output with
  | None => raise (RuntimeError ("Regex failed on output: " +:+ output))
  | Some group1 => ret group1
  end.

Definition combine_cmd (coverage_dat_combined : Path) (coverage_files : list string)
    (coverage_html : Path) : string :=
  lf +:+ "            export COVERAGE_FILE=" +:+ dquote +:+ str coverage_dat_combined
  +:+ dquote +:+ lf
  +:+ "            coverage combine " +:+ join " " coverage_files +:+ lf
  +:+ "            coverage html -d " +:+ str coverage_html +:+ lf
  +:+ "        ".

(** [coverage_dat.with_name(coverage_dat.name.replace(".dat", "-copy.dat"))] *)
Definition temp_copy_of (coverage_dat : Path) : option Path :=
  with_name coverage_dat (replace ".dat" "-copy.dat" (name coverage_dat)).

Definition missing_dat_warning (test_type : string) (coverage_dat : Path) : string :=
  "Could not find coverage dat file for " +:+ test_type +:+ " tests: " +:+ str coverage_dat.

(** One turn of the loop of [coverage_report] over the test types; the
    list [coverage_files] is the one the loop appends to. *)
Definition coverage_report_step (toolbox : Toolbox) (coverage_files : list string)
    (test_type : string) : M (list string) :=
  let coverage_dat := coverage_dat_of toolbox test_type in
  found <- path_exists coverage_dat ;;;
  if negb found then
    secho (missing_dat_warning test_type coverage_dat) "yellow" ;;;
    ret coverage_files
  else
    total <- _get_total_coverage coverage_dat ;;;
    print (title test_type +:+ " test coverage: " +:+ total) ;;;
    match temp_copy_of coverage_dat with
    | None => raise ValueError
    | Some temp_copy =>
        shutil_copy coverage_dat temp_copy ;;;
        ret (coverage_files ++ [str temp_copy])
    end.

Fixpoint coverage_report_loop (toolbox : Toolbox) (coverage_files : list string)
    (test_types : list string) : M (list string) :=
  match test_types with
  | [] => ret coverage_files
  | test_type :: rest =>
      coverage_files' <- coverage_report_step toolbox coverage_files test_type ;;;
      coverage_report_loop toolbox coverage_files' rest
  end.

Definition refer_message (coverage_html : Path) : string :=
  "Refer to coverage report for full analysis in '" +:+ str coverage_html
  +:+ "/index.html'" +:+ lf
  +:+ "Or open the report in your default browser with:" +:+ lf
  +:+ "  pipenv run inv coverage-open".

(** [toolbox.reports_directory / "coverage.dat"] *)
Definition coverage_dat_combined (toolbox : Toolbox) : Path :=
  reports_directory toolbox </> "coverage.dat".

(** [toolbox.reports_directory / "coverage-report/"] *)
Definition coverage_html (toolbox : Toolbox) : Path :=
  reports_directory toolbox </> "coverage-report/".

(** The body of [coverage_report]. The function is decorated with
    [handle_invoke_exceptions], which is defined outside these sources:
    [Raise e] is the exception that leaves the body and reaches the
    decorator, not the outcome of the decorated command. *)
Definition coverage_report (toolbox : Toolbox) : M unit :=
  print_header "Generating coverage report" None (Some "📃") ;;;
  ensure_reports_dir (reports_directory toolbox) ;;;
  coverage_files <- coverage_report_loop toolbox [] (test_types toolbox) ;;;
  _ <- ctx_run (combine_cmd (coverage_dat_combined toolbox) coverage_files
                  (coverage_html toolbox)) [] ;;;
  total <- _get_total_coverage (coverage_dat_combined toolbox) ;;;
  print ("Total coverage: " +:+ total +:+ lf) ;;;
  print (refer_message (coverage_html toolbox)).

(** The state in which the loop of [coverage_report] starts. *)
Definition loop_start (toolbox : Toolbox) (st : state) : state :=
  mkState (fs st)
    (trace st ++ [EHeader "Generating coverage report" None (Some "📃");
                  EEnsureReportsDir (reports_directory toolbox)]).

Definition report_missing_message (report_index : Path) : string :=
  "Could not find coverage report '" +:+ str report_index
  +:+ "'. Ensure that the report has been built." +:+ lf
  +:+ "Try one of the following:" +:+ lf
  +:+ "  pipenv run inv " +:+ coverage_report_name +:+ lf
  +:+ "or" +:+ lf
  +:+ "  pipenv run inv " +:+ test_all_name.

Definition coverage_open (toolbox : Toolbox) : M unit :=
  let report_index := reports_directory toolbox </> "coverage-report" </> "index.html" in
  found <- path_exists report_index ;;;
  if negb found then
    secho (report_missing_message report_index) "red" ;;;
    raise (ClickExit 1)
  else
    webbrowser_open ("file:///" +:+ str (absolute report_index)).

End Commands.
End Tests.

(** ** The words of the specification about the coverage figure *)

Module CoverageSpec.
Import PyStr Regex.

(** A percentage token: a non-empty run of [[\d.]] characters and a
    [%] sign. *)
Definition is_pct_token (t : string) : Prop :=
  exists run, t = run +:+ "%" /\ run <> "" /\ str_forall in_class run = true.

(** A line that holds the token [TOTAL] followed by a percentage
    token. *)
Definition total_row (line : string) : Prop :=
  exists a m t b, line = a +:+ "TOTAL" +:+ m +:+ t +:+ b /\ is_pct_token t.

Definition has_total_row (output : string) : Prop :=
  exists line, In line (lines output) /\ total_row line.

(** The text after the first occurrence of [TOTAL]. *)
Fixpoint after_first_total (s : string) : option string :=
  match strip_prefix "TOTAL" s with
  | Some r => Some r
  | None =>
      match s with
      | EmptyString => None
      | String _ r => after_first_total r
      end
  end.

(** The leftmost percentage token of [s]. *)
Fixpoint leftmost_token (s : string) : option string :=
  match match_pct s with
  | Some t => Some t
  | None =>
      match s with
      | EmptyString => None
      | String _ r => leftmost_token r
      end
  end.

(** The leftmost percentage token that follows the first occurrence of
    [TOTAL] on the same line. *)
Definition first_total_token (output : string) : option string :=
  match after_first_total output with
  | Some r => leftmost_token (rest_of_line r)
  | None => None
  end.

(** The leftmost percentage token that follows, on the same line, the
    first occurrence of [TOTAL] that has one. *)
Fixpoint first_total_with_token (s : string) : option string :=
  match
    match strip_prefix "TOTAL" s with
    | Some r => leftmost_token (rest_of_line r)
    | None => None
    end
  with
  | Some t => Some t
  | None =>
      match s with
      | EmptyString => None
      | String _ r => first_total_with_token r
      end
  end.

End CoverageSpec.

(** ** The words of the specification about the temporary copies *)

Module AggregationSpec.
Import PyStr Pathlib Effects Tests.

(** The path of the temporary copy of a data file. *)
Definition temp_name_of (coverage_dat : Path) : Path :=
  List.removelast coverage_dat ++ [replace ".dat" "-copy.dat" (name coverage_dat)].

(** No test type has, as its data file, the temporary copy of the data
    file of a test type. *)
Definition no_clash (toolbox : Toolbox) : bool :=
  forallb (fun c =>
    forallb (fun c' =>
      negb (String.eqb (str (temp_name_of (coverage_dat_of toolbox c)))
              (str (coverage_dat_of toolbox c'))))
      (test_types toolbox))
    (test_types toolbox).

(** The claim that no data file of a test type is given to the combine
    step. *)
Definition originals_kept `{Externals} (toolbox : Toolbox) (st : state) : Prop :=
  forall st' files,
    coverage_report toolbox st = (Ok tt, st') ->
    In (ERun (combine_cmd (coverage_dat_combined toolbox) files (coverage_html toolbox)) [])
       (trace st') ->
    forall c, In c (test_types toolbox) -> ~ In (str (coverage_dat_of toolbox c)) files.

End AggregationSpec.

(** ** The words of the specification about the lint pipeline *)

Module LintSpec.
Import PyStr Pathlib Effects Lint.

(** The commands of the four child processes of [lint], in the order
    of the code. *)
Definition lint_commands (project : Project) : list string :=
  [pylint_cmd [source_directory project]
     (reports_directory project </> "pylint-report.log")
     (root_directory project </> ".pylintrc");
   pylint_cmd [tests_directory project]
     (reports_directory project </> "pylint-report-tests.log")
     (tests_directory project </> ".pylintrc");
   pycodestyle_cmd project (reports_directory project </> "pycodestyle-report.log");
   pydocstyle_cmd project (reports_directory project </> "pydocstyle-report.log")].

(** The order that the specification gives: the style check, the
    docstring check, then the static analysis of the sources and of
    the tests. *)
Definition claimed_order (project : Project) : list string :=
  [pycodestyle_cmd project (reports_directory project </> "pycodestyle-report.log");
   pydocstyle_cmd project (reports_directory project </> "pydocstyle-report.log");
   pylint_cmd [source_directory project]
     (reports_directory project </> "pylint-report.log")
     (root_directory project </> ".pylintrc");
   pylint_cmd [tests_directory project]
     (reports_directory project </> "pylint-report-tests.log")
     (tests_directory project </> ".pylintrc")].

(** A success indicator is among the events. *)
Definition success_shown (events : list event) : bool :=
  existsb (fun e => match e with ECPrint _ _ => true | _ => false end) events.

(** The text of a report is put on the console among the events. *)
Definition report_shown (events : list event) : bool :=
  existsb (fun e => match e with EPrint _ | EFormatMessages _ => true | _ => false end) events.

(** The outcome of a check whose child process gave the exit status
    [code]. *)
Definition outcome_of (cmd : string) (code : Z) : result unit :=
  if (code =? 0)%Z then Ok tt else Raise (UnexpectedExit cmd code).

(** The claim that a check whose tool ends with the exit status 0
    shows a success indicator and no report. *)
Definition quiet_success `{Externals} (check : Project -> M unit)
    (cmd : Project -> string) : Prop :=
  forall project st out files',
    shell (cmd project) [] (fs st) = (0%Z, out, files') ->
    let events := added st (snd (check project st)) in
    success_shown events = true /\ report_shown events = false.

(** The claim that the three checks of the pipeline are all
    attempted. *)
Definition all_attempted `{Externals} (project : Project) (st : state) : Prop :=
  forall cmd, In cmd (lint_commands project) ->
    In cmd (commands_of (added st (snd (lint project st)))).

End LintSpec.

(** ** The words of the specification about the report files *)

Module ReportsSpec.
Import PyStr Pathlib Effects Lint.

(** The commands of the lint checks, were their reports named as the
    specification names them. *)
Definition claimed_lint_commands (project : Project) : list string :=
  [pycodestyle_cmd project (reports_directory project </> "style-report.log");
   pydocstyle_cmd project (reports_directory project </> "docstring-report.log");
   pylint_cmd [source_directory project]
     (reports_directory project </> "lint-report.log")
     (root_directory project </> ".pylintrc");
   pylint_cmd [tests_directory project]
     (reports_directory project </> "lint-tests-report.log")
     (tests_directory project </> ".pylintrc")].

(** A name of a test type that is one path component. *)
Definition simple_name (c : string) : Prop :=
  str_forall (not_char "/") c = true.

End ReportsSpec.

(** ** Invariants of the traces *)

Module TraceSpec.
Import Effects.

(** No child process is started before the reports directory has been
    ensured; [ensured] tells whether it already has been. *)
Fixpoint ensured_before_run (ensured : bool) (events : list event) : bool :=
  match events with
  | [] => true
  | EEnsureReportsDir _ :: rest => ensured_before_run true rest
  | ERun _ _ :: rest => ensured && ensured_before_run ensured rest
  | _ :: rest => ensured_before_run ensured rest
  end.

(** The failure of a turn of the loop of [coverage_report] whose data
    file is there: the coverage tool ends with a non-zero exit status,
    or its output has no [TOTAL] row. *)
Definition report_failure (cmd : string) (code : Z) (out : string) : exn :=
  if (code =? 0)%Z then RuntimeError ("Regex failed on output: " +:+ out)
  else UnexpectedExit cmd code.

End TraceSpec.

(** ** Concrete runs

    Small worlds on which the commands are run: a reports directory
    [reports], and child processes whose outcome is fixed per command. *)

Module Demo.
Import PyStr Pathlib Effects Utils.

Definition is_lower (c : ascii) : bool :=
  (97 <=? nat_of_ascii c)%nat && (nat_of_ascii c <=? 122)%nat.
Definition is_upper (c : ascii) : bool :=
  (65 <=? nat_of_ascii c)%nat && (nat_of_ascii c <=? 90)%nat.

(** [str.title] on ASCII text. *)
Fixpoint title_go (prev_cased : bool) (s : string) : string :=
  match s with
  | EmptyString => EmptyString
  | String c r =>
      if is_lower c then
        String (if prev_cased then c else ascii_of_nat (nat_of_ascii c - 32)) (title_go true r)
      else if is_upper c then
        String (if prev_cased then ascii_of_nat (nat_of_ascii c + 32) else c) (title_go true r)
      else String c (title_go false r)
  end.

Definition ascii_title (s : string) : string := title_go false s.

(** The collaborators of a run whose child processes behave as [sh]. *)
Definition externals_of
    (sh : string -> list (string * string) -> gmap (list string) string ->
          Z * string * gmap (list string) string) : Externals :=
  {| shell := sh;
     title := ascii_title;
     absolute := fun p => "/" :: "work" :: p;
     coverage_report_name := "coverage-report";
     test_all_name := "test-all" |}.

(** Every child process gives the exit status [code] and the output
    [out], and changes no file. *)
Definition constant_shell (code : Z) (out : string) :
    string -> list (string * string) -> gmap (list string) string ->
    Z * string * gmap (list string) string :=
  fun _ _ files => (code, out, files).

Definition empty_state : state := mkState ∅ [].

(** A project with unit and integration tests. *)
Definition toolbox : Tests.Toolbox :=
  Tests.mkToolbox ["src"] (Some ["tests"]) ["reports"] ["unit"; "integration"].

Definition report_text (total : string) : string :=
  "Name      Stmts   Miss  Cover" +:+ lf
  +:+ "TOTAL     " +:+ total.

(** The coverage tool reports 80% for the unit tests, 60% for the
    integration tests and 75% for the combined data; the combine step
    writes the combined data file and erases the copies it is given. *)
Definition coverage_shell :
    string -> list (string * string) -> gmap (list string) string ->
    Z * string * gmap (list string) string :=
  fun cmd _ files =>
    if String.eqb cmd (Tests.coverage_report_cmd ["reports"; "coverage-unit.dat"])
    then (0%Z, report_text "10      2    80%", files)
    else if String.eqb cmd (Tests.coverage_report_cmd ["reports"; "coverage-integration.dat"])
    then (0%Z, report_text "10      4    60%", files)
    else if String.eqb cmd (Tests.coverage_report_cmd ["reports"; "coverage.dat"])
    then (0%Z, report_text "20      5    75%", files)
    else (0%Z, "",
          <[ ["reports"; "coverage.dat"] := "combined data" ]>
            (delete ["reports"; "coverage-unit-copy.dat"]
               (delete ["reports"; "coverage-integration-copy.dat"] files))).

(** Both data files are there. *)
Definition both_present : state :=
  mkState
    (<[ ["reports"; "coverage-unit.dat"] := "unit data" ]>
       (<[ ["reports"; "coverage-integration.dat"] := "integration data" ]> ∅))
    [].

(** Only the data file of the integration tests is there. *)
Definition unit_absent : state :=
  mkState (<[ ["reports"; "coverage-integration.dat"] := "integration data" ]> ∅) [].

(** A project whose second test type is named after the first with
    [-copy] added, with both data files there. *)
Definition clash_toolbox : Tests.Toolbox :=
  Tests.mkToolbox ["src"] (Some ["tests"]) ["reports"] ["unit"; "unit-copy"].

Definition clash_state : state :=
  mkState
    (<[ ["reports"; "coverage-unit.dat"] := "unit data" ]>
       (<[ ["reports"; "coverage-unit-copy.dat"] := "unit-copy data" ]> ∅))
    [].

(** A project to lint. *)
Definition project : Lint.Project :=
  Lint.mkProject ["src"] ["tests"] ["reports"] [].

(** Every tool finds nothing: the exit status is 0 and the report that
    the shell redirection leaves is empty. *)
Definition clean_shell :
    string -> list (string * string) -> gmap (list string) string ->
    Z * string * gmap (list string) string :=
  fun cmd _ files =>
    if String.prefix "pylint --rcfile .pylintrc" cmd
    then (0%Z, "", <[ ["reports"; "pylint-report.log"] := "" ]> files)
    else if String.prefix "pylint" cmd
    then (0%Z, "", <[ ["reports"; "pylint-report-tests.log"] := "" ]> files)
    else if String.prefix "pycodestyle" cmd
    then (0%Z, "", <[ ["reports"; "pycodestyle-report.log"] := "" ]> files)
    else (0%Z, "", <[ ["reports"; "pydocstyle-report.log"] := "" ]> files).

Definition pylint_finding : string :=
  "src/a.py:1:0: C0114: Missing module docstring (missing-module-docstring)".

(** [pylint] finds something in the sources and ends with the exit
    status 16; the other tools find nothing. *)
Definition pylint_fails_shell :
    string -> list (string * string) -> gmap (list string) string ->
    Z * string * gmap (list string) string :=
  fun cmd _ files =>
    if String.prefix "pylint --rcfile .pylintrc" cmd
    then (16%Z, "", <[ ["reports"; "pylint-report.log"] := pylint_finding ]> files)
    else clean_shell cmd [] files.

End Demo.

(** * Properties *)

(** ** Strings *)

Module PyStrFacts.
Import PyStr.

Lemma str_app_nil_l (s : string) : "" +:+ s = s.
Proof. reflexivity. Qed.

Lemma str_app_cons (c : ascii) (a b : string) :
  String c a +:+ b = String c (a +:+ b).
Proof. reflexivity. Qed.

Lemma str_app_nil_r (s : string) : s +:+ "" = s.
Proof.
  induction s as [|c s IH]; [reflexivity|].
  now rewrite str_app_cons, IH.
Qed.

Lemma str_app_assoc (a b c : string) : (a +:+ b) +:+ c = a +:+ b +:+ c.
Proof.
  induction a as [|x a IH]; [reflexivity|].
  now rewrite !str_app_cons, IH.
Qed.

Lemma str_length_app (a b : string) :
  String.length (a +:+ b) = String.length a + String.length b.
Proof.
  induction a as [|x a IH]; [reflexivity|].
  rewrite str_app_cons. simpl. now rewrite IH.
Qed.

Lemma strip_prefix_Some (p s r : string) :
  strip_prefix p s = Some r <-> s = p +:+ r.
Proof.
  revert s. induction p as [|a p IH]; intros s; simpl.
  - rewrite str_app_nil_l. split; [intros [= ->] | intros ->]; reflexivity.
  - rewrite str_app_cons. destruct s as [|b s]; [split; discriminate|].
    destruct (Ascii.eqb_spec a b) as [->|Hne].
    + rewrite IH. split; [intros -> | intros [= ->]]; reflexivity.
    + split; [discriminate | intros [= Hab _]; congruence].
Qed.

Lemma strip_prefix_app (p r : string) : strip_prefix p (p +:+ r) = Some r.
Proof. now apply strip_prefix_Some. Qed.

Lemma str_forall_app (p : ascii -> bool) (a b : string) :
  str_forall p (a +:+ b) = str_forall p a && str_forall p b.
Proof.
  induction a as [|x a IH]; [reflexivity|].
  rewrite str_app_cons. simpl. now rewrite IH, andb_assoc.
Qed.

Lemma split_on_nonempty (sep : ascii) (s : string) : split_on sep s <> [].
Proof.
  destruct s as [|c r]; simpl; [discriminate|].
  destruct (Ascii.eqb c sep); [discriminate|].
  destruct (split_on sep r); discriminate.
Qed.

(** Every piece of a split is free of the separator and is a segment
    of the string. *)
Lemma split_on_In (sep : ascii) (s l : string) :
  In l (split_on sep s) ->
  str_forall (not_char sep) l = true /\ exists pre post, s = pre +:+ l +:+ post.
Proof.
  revert l. induction s as [|c r IH]; intros l; simpl.
  - intros [<-|[]]. split; [reflexivity|]. now exists "", "".
  - destruct (Ascii.eqb c sep) eqn:Ec.
    + intros [<-|Hin].
      * split; [reflexivity|]. now exists "", (String c r).
      * destruct (IH l Hin) as [Hl (pre & post & ->)].
        split; [exact Hl|]. now exists (String c pre), post.
    + destruct (split_on sep r) as [|l0 ls] eqn:Es.
      { now destruct (split_on_nonempty sep r). }
      intros [<-|Hin].
      * destruct (IH l0 (or_introl eq_refl)) as [Hl (pre & post & Hr)].
        split.
        -- simpl. unfold not_char at 1. now rewrite Ec, Hl.
        -- (* the first piece starts the string *)
           clear IH Hl pre post Hr.
           assert (Hhead : exists post, r = l0 +:+ post).
           { clear Ec. revert l0 ls Es. induction r as [|d r IHr]; intros l0 ls; simpl.
             - intros [= <- <-]. now exists "".
             - destruct (Ascii.eqb d sep).
               + intros [= <- <-]. now exists (String d r).
               + destruct (split_on sep r) as [|l1 ls1] eqn:Es1.
                 { now destruct (split_on_nonempty sep r). }
                 intros [= <- <-].
                 destruct (IHr l1 ls1 eq_refl) as [post ->].
                 now exists post. }
           destruct Hhead as [post ->]. now exists "", post.
      * destruct (IH l (or_intror Hin)) as [Hl (pre & post & ->)].
        split; [exact Hl|]. now exists (String c pre), post.
Qed.

(** A separator-free segment of a string lies within one piece of its
    split. *)
Lemma split_on_head (sep : ascii) (x b : string) :
  str_forall (not_char sep) x = true ->
  exists hd tl, split_on sep (x +:+ b) = (x +:+ hd) :: tl.
Proof.
  induction x as [|c x IH]; intros Hx.
  - rewrite str_app_nil_l.
    destruct (split_on sep b) as [|hd tl] eqn:Es.
    { now destruct (split_on_nonempty sep b). }
    now exists hd, tl.
  - simpl in Hx. apply andb_true_iff in Hx as [Hc Hx].
    destruct (IH Hx) as (hd & tl & E).
    rewrite str_app_cons. simpl. unfold not_char in Hc.
    apply negb_true_iff in Hc. rewrite Hc, E.
    now exists hd, tl.
Qed.

Lemma split_on_segment (sep : ascii) (a x b : string) :
  str_forall (not_char sep) x = true ->
  exists l a' b', In l (split_on sep (a +:+ x +:+ b)) /\ l = a' +:+ x +:+ b'.
Proof.
  intros Hx. induction a as [|c a IH].
  - rewrite str_app_nil_l. destruct (split_on_head sep x b Hx) as (hd & tl & E).
    exists (x +:+ hd), "", hd. rewrite E. split; [now left | reflexivity].
  - destruct IH as (l & a' & b' & Hin & ->).
    rewrite str_app_cons. simpl. destruct (Ascii.eqb c sep).
    + exists (a' +:+ x +:+ b'), a', b'. split; [now right | reflexivity].
    + destruct (split_on sep (a +:+ x +:+ b)) as [|l0 ls]; [destruct Hin|].
      destruct Hin as [->|Hin].
      * exists (String c (a' +:+ x +:+ b')), (String c a'), b'.
        split; [now left | reflexivity].
      * exists (a' +:+ x +:+ b'), a', b'. split; [now right | reflexivity].
Qed.

End PyStrFacts.

(** ** Events *)

Module EffectsFacts.
Import Effects.

Lemma added_app (st : state) (files : gmap (list string) string) (events : list event) :
  added st (mkState files (trace st ++ events)) = events.
Proof. unfold added. simpl. now rewrite drop_app_length. Qed.

Lemma copies_of_app (a b : list event) :
  copies_of (a ++ b) = copies_of a ++ copies_of b.
Proof.
  induction a as [|e a IH]; [reflexivity|].
  destruct e; simpl; rewrite IH; reflexivity.
Qed.

Lemma commands_of_app (a b : list event) :
  commands_of (a ++ b) = commands_of a ++ commands_of b.
Proof.
  induction a as [|e a IH]; [reflexivity|].
  destruct e; simpl; rewrite IH; reflexivity.
Qed.

End EffectsFacts.

(** ** The search for the coverage figure *)

Module RegexFacts.
Import PyStr PyStrFacts Regex CoverageSpec.

Lemma in_class_not_pct (c : ascii) : in_class c = true -> Ascii.eqb c "%" = false.
Proof.
  intros Hc. destruct (Ascii.eqb_spec c "%") as [->|]; [discriminate Hc | reflexivity].
Qed.

Lemma in_class_not_lf (c : ascii) : in_class c = true -> Ascii.eqb c LF = false.
Proof.
  intros Hc. destruct (Ascii.eqb_spec c LF) as [->|]; [discriminate Hc | reflexivity].
Qed.

(** What the group matches is a percentage token at the head of the
    text. *)
Lemma match_pct_sound (s t : string) :
  match_pct s = Some t ->
  is_pct_token t /\ exists rest, s = t +:+ rest.
Proof.
  revert t. induction s as [|c r IH]; intros t; simpl; [discriminate|].
  destruct (in_class c) eqn:Hc; [|discriminate].
  destruct (match_pct r) as [t'|] eqn:Hr.
  - intros [= <-]. destruct (IH t' eq_refl) as [(run & -> & Hne & Hrun) (rest & ->)].
    split.
    + exists (String c run). split; [reflexivity|]. split; [discriminate|].
      simpl. now rewrite Hc, Hrun.
    + now exists rest.
  - destruct r as [|p r']; [discriminate|].
    destruct (Ascii.eqb_spec p "%") as [->|]; [|discriminate].
    intros [= <-]. split.
    + exists (String c ""). split; [reflexivity|]. split; [discriminate|].
      simpl. now rewrite Hc.
    + now exists r'.
Qed.

Lemma match_pct_cons (c : ascii) (r : string) :
  match_pct (String c r) =
  if in_class c then
    match match_pct r with
    | Some t => Some (String c t)
    | None =>
        match r with
        | String p _ => if Ascii.eqb p "%" then Some (String c "%") else None
        | EmptyString => None
        end
    end
  else None.
Proof. reflexivity. Qed.

Lemma match_lazy_eq (s : string) :
  match_lazy s =
  match match_pct s with
  | Some t => Some t
  | None =>
      match s with
      | EmptyString => None
      | String c r => if Ascii.eqb c LF then None else match_lazy r
      end
  end.
Proof. destruct s; reflexivity. Qed.

Lemma re_search_eq (s : string) :
  re_search s =
  match match_here s with
  | Some t => Some t
  | None =>
      match s with
      | EmptyString => None
      | String _ r => re_search r
      end
  end.
Proof. destruct s; reflexivity. Qed.

Lemma match_pct_complete (run rest : string) :
  run <> "" -> str_forall in_class run = true ->
  match_pct (run +:+ "%" +:+ rest) = Some (run +:+ "%").
Proof.
  induction run as [|c run IH]; intros Hne Hrun; [congruence|].
  simpl in Hrun. apply andb_true_iff in Hrun as [Hc Hrun].
  rewrite !(str_app_cons c run), match_pct_cons, Hc.
  destruct (String.string_dec run "") as [->|Hrun'].
  - reflexivity.
  - now rewrite IH.
Qed.

Lemma match_lazy_sound (s t : string) :
  match_lazy s = Some t ->
  exists m rest, s = m +:+ t +:+ rest
    /\ str_forall (not_char LF) m = true /\ is_pct_token t.
Proof.
  induction s as [|c r IH]; rewrite match_lazy_eq.
  - simpl. discriminate.
  - destruct (match_pct (String c r)) as [t0|] eqn:Hp.
    + intros [= <-]. destruct (match_pct_sound _ _ Hp) as [Htok (rest & E)].
      exists "", rest. rewrite str_app_nil_l. auto.
    + destruct (Ascii.eqb c LF) eqn:El; [discriminate|].
      intros Hl. destruct (IH Hl) as (m & rest & -> & Hm & Htok).
      exists (String c m), rest. split; [reflexivity|]. split; [|exact Htok].
      simpl. unfold not_char at 1. now rewrite El, Hm.
Qed.

Lemma match_lazy_complete (m t rest : string) :
  str_forall (not_char LF) m = true -> is_pct_token t ->
  exists t', match_lazy (m +:+ t +:+ rest) = Some t'.
Proof.
  intros Hm (run & -> & Hne & Hrun).
  induction m as [|c m IH].
  - rewrite str_app_nil_l, str_app_assoc, match_lazy_eq.
    rewrite (match_pct_complete run rest Hne Hrun). eauto.
  - simpl in Hm. apply andb_true_iff in Hm as [Hc Hm].
    destruct (IH Hm) as [t' Ht'].
    rewrite str_app_cons, match_lazy_eq.
    destruct (match_pct _) as [t0|]; [eauto|].
    unfold not_char in Hc. apply negb_true_iff in Hc. rewrite Hc. eauto.
Qed.

Lemma re_search_sound (s t : string) :
  re_search s = Some t ->
  exists a r, s = a +:+ "TOTAL" +:+ r /\ match_lazy r = Some t.
Proof.
  induction s as [|c s IH]; rewrite re_search_eq.
  - simpl. discriminate.
  - destruct (match_here (String c s)) as [t0|] eqn:Hh.
    + intros [= <-]. unfold match_here in Hh.
      destruct (strip_prefix "TOTAL" (String c s)) as [r|] eqn:Hs; [|discriminate].
      apply strip_prefix_Some in Hs. exists "", r. now rewrite str_app_nil_l.
    + intros Hr. destruct (IH Hr) as (a & r & -> & Hl).
      now exists (String c a), r.
Qed.

Lemma re_search_complete (a r t : string) :
  match_lazy r = Some t -> exists t', re_search (a +:+ "TOTAL" +:+ r) = Some t'.
Proof.
  intros Hl. induction a as [|c a IH].
  - rewrite str_app_nil_l, re_search_eq.
    unfold match_here. rewrite strip_prefix_app, Hl. eauto.
  - destruct IH as [t' Ht']. rewrite str_app_cons, re_search_eq.
    destruct (match_here _); eauto.
Qed.

(** The search succeeds exactly on the texts in which [TOTAL] is
    followed, before any line feed, by a percentage token. *)
Lemma re_search_Some_iff (s : string) :
  (exists t, re_search s = Some t) <->
  exists a m t b, s = a +:+ "TOTAL" +:+ m +:+ t +:+ b
    /\ str_forall (not_char LF) m = true /\ is_pct_token t.
Proof.
  split.
  - intros [t Ht]. destruct (re_search_sound _ _ Ht) as (a & r & -> & Hl).
    destruct (match_lazy_sound _ _ Hl) as (m & rest & -> & Hm & Htok).
    now exists a, m, t, rest.
  - intros (a & m & t & b & -> & Hm & Htok).
    destruct (match_lazy_complete m t b Hm Htok) as [t' Ht'].
    now apply re_search_complete with (t := t').
Qed.

Lemma pct_token_no_lf (t : string) :
  is_pct_token t -> str_forall (not_char LF) t = true.
Proof.
  intros (run & -> & _ & Hrun). rewrite str_forall_app.
  apply andb_true_iff. split; [|reflexivity].
  induction run as [|c run IH]; [reflexivity|].
  simpl in *. apply andb_true_iff in Hrun as [Hc Hrun].
  unfold not_char at 1. now rewrite (in_class_not_lf c Hc), IH.
Qed.

(** The same, read line by line. *)
Lemma re_search_Some_iff_row (s : string) :
  (exists t, re_search s = Some t) <-> has_total_row s.
Proof.
  rewrite re_search_Some_iff. split.
  - intros (a & m & t & b & -> & Hm & Htok).
    assert (Hx : str_forall (not_char LF) ("TOTAL" +:+ m +:+ t) = true).
    { rewrite !str_forall_app, Hm, (pct_token_no_lf t Htok). reflexivity. }
    destruct (split_on_segment LF a _ b Hx) as (l & a' & b' & Hin & ->).
    exists (a' +:+ ("TOTAL" +:+ m +:+ t) +:+ b'). split.
    + unfold lines. now rewrite !str_app_assoc in *.
    + exists a', m, t, b'. now rewrite !str_app_assoc.
  - intros (line & Hin & a & m & t & b & -> & Htok).
    destruct (split_on_In LF s _ Hin) as [Hfree (pre & post & ->)].
    rewrite !str_forall_app in Hfree.
    repeat (apply andb_true_iff in Hfree as [? Hfree]).
    exists (pre +:+ a), m, t, (b +:+ post).
    rewrite !str_app_assoc. auto.
Qed.

End RegexFacts.

(** ** The first match is the result *)

Module FirstMatch.
Import PyStr PyStrFacts Regex CoverageSpec RegexFacts.

Lemma match_pct_rest_of_line (s : string) :
  match_pct (rest_of_line s) = match_pct s.
Proof.
  induction s as [|c r IH]; [reflexivity|].
  simpl rest_of_line. destruct (Ascii.eqb c LF) eqn:El.
  - rewrite match_pct_cons.
    destruct (in_class c) eqn:Hc; [|reflexivity].
    now rewrite (in_class_not_lf c Hc) in El.
  - rewrite !match_pct_cons, IH.
    destruct (in_class c); [|reflexivity].
    destruct (match_pct r); [reflexivity|].
    destruct r as [|p r']; [reflexivity|].
    simpl rest_of_line. destruct (Ascii.eqb_spec p LF) as [->|]; reflexivity.
Qed.

Lemma leftmost_token_eq (s : string) :
  leftmost_token s =
  match match_pct s with
  | Some t => Some t
  | None =>
      match s with
      | EmptyString => None
      | String _ r => leftmost_token r
      end
  end.
Proof. destruct s; reflexivity. Qed.

(** The lazy repetition finds the leftmost token of the rest of the
    line. *)
Lemma match_lazy_leftmost (s : string) :
  match_lazy s = leftmost_token (rest_of_line s).
Proof.
  induction s as [|c r IH]; [reflexivity|].
  rewrite match_lazy_eq, leftmost_token_eq, match_pct_rest_of_line.
  destruct (match_pct (String c r)) eqn:Hp; [reflexivity|].
  simpl rest_of_line. destruct (Ascii.eqb c LF); [reflexivity | exact IH].
Qed.

Lemma first_total_with_token_eq (s : string) :
  first_total_with_token s =
  match
    match strip_prefix "TOTAL" s with
    | Some r => leftmost_token (rest_of_line r)
    | None => None
    end
  with
  | Some t => Some t
  | None =>
      match s with
      | EmptyString => None
      | String _ r => first_total_with_token r
      end
  end.
Proof. destruct s; reflexivity. Qed.

Lemma after_first_total_eq (s : string) :
  after_first_total s =
  match strip_prefix "TOTAL" s with
  | Some r => Some r
  | None =>
      match s with
      | EmptyString => None
      | String _ r => after_first_total r
      end
  end.
Proof. destruct s; reflexivity. Qed.

Lemma re_search_first_with_token (s : string) :
  re_search s = first_total_with_token s.
Proof.
  induction s as [|c r IH]; [reflexivity|].
  rewrite re_search_eq, first_total_with_token_eq. unfold match_here.
  destruct (strip_prefix "TOTAL" (String c r)) as [r0|].
  - rewrite <- match_lazy_leftmost. destruct (match_lazy r0); [reflexivity | exact IH].
  - exact IH.
Qed.

Lemma first_total_token_with_token (s t : string) :
  first_total_token s = Some t -> first_total_with_token s = Some t.
Proof.
  unfold first_total_token. induction s as [|c r IH].
  - simpl. discriminate.
  - rewrite after_first_total_eq, first_total_with_token_eq.
    destruct (strip_prefix "TOTAL" (String c r)) as [r0|].
    + intros ->. reflexivity.
    + intros Ht. rewrite (IH Ht). reflexivity.
Qed.

(** *** Text after a match does not change it *)

Lemma match_pct_app (a b t : string) :
  match_pct a = Some t -> match_pct (a +:+ b) = Some t.
Proof.
  intros Ha. destruct (match_pct_sound _ _ Ha) as [(run & -> & Hne & Hrun) (rest & ->)].
  rewrite !str_app_assoc. now apply match_pct_complete.
Qed.

Lemma match_pct_class_None (r : string) :
  str_forall in_class r = true -> match_pct r = None.
Proof.
  induction r as [|c r IH]; [reflexivity|].
  simpl. intros Hr. apply andb_true_iff in Hr as [Hc Hr].
  rewrite Hc, (IH Hr). destruct r as [|p r']; [reflexivity|].
  simpl in Hr. apply andb_true_iff in Hr as [Hp _].
  now rewrite (in_class_not_pct p Hp).
Qed.

Lemma match_lazy_class_None (r : string) :
  str_forall in_class r = true -> match_lazy r = None.
Proof.
  induction r as [|c r IH]; [reflexivity|].
  intros Hr. rewrite match_lazy_eq, (match_pct_class_None _ Hr).
  simpl in Hr. apply andb_true_iff in Hr as [Hc Hr].
  now rewrite (in_class_not_lf c Hc), (IH Hr).
Qed.

Lemma class_no_lf (r : string) :
  str_forall in_class r = true -> str_forall (not_char LF) r = true.
Proof.
  induction r as [|c r IH]; [reflexivity|].
  simpl. intros Hr. apply andb_true_iff in Hr as [Hc Hr].
  unfold not_char at 1. now rewrite (in_class_not_lf c Hc), (IH Hr).
Qed.

(** When the group fails on [a] and succeeds once text is added, the
    whole of [a] is a run of class characters. *)
Lemma match_pct_grows (a b t : string) :
  match_pct a = None -> match_pct (a +:+ b) = Some t ->
  str_forall in_class a = true.
Proof.
  revert t. induction a as [|c a IH]; intros t; [reflexivity|].
  rewrite str_app_cons, !match_pct_cons. simpl.
  destruct (in_class c); [|discriminate]. simpl.
  destruct (match_pct a) as [t0|] eqn:Ha; [discriminate|].
  destruct (match_pct (a +:+ b)) as [t1|] eqn:Hab.
  - intros _ _. now apply (IH t1).
  - destruct a as [|p a']; [reflexivity|].
    rewrite str_app_cons. destruct (Ascii.eqb p "%"); discriminate.
Qed.

Lemma match_lazy_app (a b t : string) :
  match_lazy a = Some t -> match_lazy (a +:+ b) = Some t.
Proof.
  induction a as [|c a IH]; [discriminate|].
  rewrite str_app_cons, (match_lazy_eq (String c a)), (match_lazy_eq (String c (a +:+ b))).
  destruct (match_pct (String c a)) as [t0|] eqn:Hp.
  - intros [= ->]. rewrite <- str_app_cons. now rewrite (match_pct_app _ b _ Hp).
  - destruct (Ascii.eqb c LF); [discriminate|]. intros Hl.
    destruct (match_pct (String c (a +:+ b))) as [t1|] eqn:Hq.
    + rewrite <- str_app_cons in Hq. pose proof (match_pct_grows _ _ _ Hp Hq) as Hall.
      simpl in Hall. apply andb_true_iff in Hall as [_ Hall].
      rewrite (match_lazy_class_None _ Hall) in Hl. discriminate.
    + now apply IH.
Qed.

(** When the lazy repetition fails on [r] and succeeds once text is
    added, no suffix of [r] starts with a token. *)
Lemma match_lazy_grows (r b t : string) :
  match_lazy r = None -> match_lazy (r +:+ b) = Some t ->
  forall x y, r = x +:+ y -> match_pct y = None.
Proof.
  revert t. induction r as [|c r IH]; intros t.
  - intros _ _ x y E. destruct x; [|discriminate].
    rewrite str_app_nil_l in E. now subst y.
  - rewrite str_app_cons, (match_lazy_eq (String c r)), (match_lazy_eq (String c (r +:+ b))).
    destruct (match_pct (String c r)) as [t0|] eqn:Hp; [discriminate|].
    destruct (match_pct (String c (r +:+ b))) as [t1|] eqn:Hq.
    + intros _ _ x y E. rewrite <- str_app_cons in Hq.
      pose proof (match_pct_grows _ _ _ Hp Hq) as Hall.
      apply match_pct_class_None. rewrite E, str_forall_app in Hall.
      now apply andb_true_iff in Hall as [_ Hy].
    + destruct (Ascii.eqb c LF); [discriminate|].
      intros Hl Hlb x y E. destruct x as [|d x].
      * rewrite str_app_nil_l in E. now subst y.
      * rewrite str_app_cons in E. injection E as _ E.
        now apply (IH t Hl Hlb x y).
Qed.

Lemma app_eq_app_long (p r u y : string) :
  p +:+ r = u +:+ y -> String.length p <= String.length u ->
  exists x, r = x +:+ y.
Proof.
  revert u. induction p as [|c p IH]; intros u.
  - rewrite str_app_nil_l. intros -> _. now exists u.
  - destruct u as [|d u]; [simpl; lia|].
    rewrite !str_app_cons. intros [= _ E] Hlen. simpl in Hlen.
    apply (IH u E). lia.
Qed.

Lemma strip_prefix_app_long (p a b r' : string) :
  String.length p <= String.length a ->
  strip_prefix p (a +:+ b) = Some r' ->
  exists r, strip_prefix p a = Some r /\ r' = r +:+ b.
Proof.
  revert a. induction p as [|c p IH]; intros a Hlen.
  - simpl. intros [= <-]. now exists a.
  - destruct a as [|d a]; [simpl in Hlen; lia|].
    rewrite str_app_cons. simpl. destruct (Ascii.eqb c d); [|discriminate].
    apply IH. simpl in Hlen. lia.
Qed.

Lemma re_search_Some_length (s t : string) :
  re_search s = Some t -> 5 <= String.length s.
Proof.
  intros Hs. destruct (re_search_sound _ _ Hs) as (a & r & -> & _).
  rewrite !str_length_app. simpl. lia.
Qed.

Lemma re_search_app (a b t : string) :
  re_search a = Some t -> re_search (a +:+ b) = Some t.
Proof.
  induction a as [|c a IH]; [discriminate|].
  rewrite str_app_cons, (re_search_eq (String c a)), (re_search_eq (String c (a +:+ b))).
  destruct (match_here (String c a)) as [t0|] eqn:Hh.
  - intros [= ->]. unfold match_here in *. rewrite <- str_app_cons.
    destruct (strip_prefix "TOTAL" (String c a)) as [r|] eqn:Hs; [|discriminate].
    apply strip_prefix_Some in Hs. rewrite Hs, str_app_assoc, strip_prefix_app.
    now rewrite (match_lazy_app _ b _ Hh).
  - intros Ha. rewrite (IH Ha).
    destruct (match_here (String c (a +:+ b))) as [t1|] eqn:Hq; [exfalso | reflexivity].
    unfold match_here in Hh, Hq. rewrite <- str_app_cons in Hq.
    destruct (strip_prefix "TOTAL" (String c a +:+ b)) as [r'|] eqn:Hs'; [|discriminate].
    pose proof (re_search_Some_length _ _ Ha) as Hlen.
    destruct (strip_prefix_app_long "TOTAL" (String c a) b r') as (r & Hs & ->);
      [simpl; lia | exact Hs' |].
    rewrite Hs in Hh.
    pose proof (match_lazy_grows r b t1 Hh Hq) as Hnone.
    apply strip_prefix_Some in Hs. injection Hs as -> ->.
    destruct (re_search_sound _ _ Ha) as (a0 & r2 & E & Hl).
    destruct (match_lazy_sound _ _ Hl) as (m & rest & -> & _ & (run & -> & Hne & Hrun)).
    assert (Ex : exists x, r = x +:+ (run +:+ "%") +:+ rest).
    { apply (app_eq_app_long "OTAL" r (a0 +:+ "TOTAL" +:+ m)).
      - rewrite E, !str_app_assoc. reflexivity.
      - rewrite !str_length_app. simpl. lia. }
    destruct Ex as [x Ex]. specialize (Hnone x _ Ex).
    rewrite str_app_assoc, (match_pct_complete run rest Hne Hrun) in Hnone. discriminate.
Qed.

End FirstMatch.

(** ** The coverage figure: claims about [_get_total_coverage] *)

Module CoverageFigure.
Import PyStr PyStrFacts Pathlib Effects Utils Regex CoverageSpec RegexFacts FirstMatch Tests.

Lemma re_search_None_iff (output : string) :
  re_search output = None <-> ~ has_total_row output.
Proof.
  rewrite <- re_search_Some_iff_row. split.
  - intros Hn [t Ht]. congruence.
  - intros Hn. destruct (re_search output) as [t|] eqn:E; [|reflexivity].
    exfalso. apply Hn. now exists t.
Qed.

Lemma get_total_coverage_run `{Externals} (coverage_dat : Path) (st : state)
    (output : string) (files' : gmap (list string) string) :
  shell (coverage_report_cmd coverage_dat) [] (fs st) = (0%Z, output, files') ->
  _get_total_coverage coverage_dat st =
  let st' := mkState files' (trace st ++ [ERun (coverage_report_cmd coverage_dat) []]) in
  match re_search output with
  | Some group1 => (Ok group1, st')
  | None => (Raise (RuntimeError ("Regex failed on output: " +:+ output)), st')
  end.
Proof.
  intros Hsh. unfold _get_total_coverage, bind, ctx_run. rewrite Hsh. simpl.
  destruct (re_search output); reflexivity.
Qed.

(** C5. The extraction of the coverage figure fails with the parse
    error exactly when no line of the tool's output holds [TOTAL]
    followed by a percentage token [[\d.]+%]; it fails on the output
    ["Name   Stmts   Miss"]; and it never gives a figure of its own
    in place of the error. *)
Theorem get_total_coverage_parse_error `{Externals} :
  (forall output, re_search output = None <-> ~ has_total_row output)
  /\ (forall coverage_dat st output files',
        shell (coverage_report_cmd coverage_dat) [] (fs st) = (0%Z, output, files') ->
        (~ has_total_row output <->
         fst (_get_total_coverage coverage_dat st)
         = Raise (RuntimeError ("Regex failed on output: " +:+ output)))
        /\ (has_total_row output <->
            exists t, fst (_get_total_coverage coverage_dat st) = Ok t))
  /\ re_search "Name   Stmts   Miss" = None.
Proof.
  split; [exact re_search_None_iff|]. split; [|reflexivity].
  intros coverage_dat st output files' Hsh.
  rewrite (get_total_coverage_run _ _ _ _ Hsh). cbv zeta.
  rewrite <- re_search_None_iff, <- re_search_Some_iff_row.
  destruct (re_search output) as [t|]; simpl; split; split.
  - discriminate.
  - discriminate.
  - intros _. now exists t.
  - intros _. now exists t.
  - reflexivity.
  - reflexivity.
  - intros [t Ht]. discriminate.
  - intros [t Ht]. discriminate.
Qed.

(** C5, on a run: the tool prints a header row and no [TOTAL] row. *)
Lemma get_total_coverage_parse_error_witness :
  fst (@_get_total_coverage
         (Demo.externals_of (Demo.constant_shell 0 "Name   Stmts   Miss"))
         ["reports"; "coverage.dat"] Demo.empty_state)
  = Raise (RuntimeError "Regex failed on output: Name   Stmts   Miss").
Proof.
  pose proof (@get_total_coverage_parse_error
                (Demo.externals_of (Demo.constant_shell 0 "Name   Stmts   Miss")))
    as (Hnone & Hrun & Hex).
  destruct (Hrun ["reports"; "coverage.dat"] Demo.empty_state
              "Name   Stmts   Miss" ∅ eq_refl) as [Hraise _].
  apply Hraise, Hnone, Hex.
Defined.

(** C10, as stated, fails: a first [TOTAL] with no percentage token on
    its line is passed over, and the figure of a later line is the
    result. *)
Lemma first_total_token_counterexample :
  re_search ("TOTAL" +:+ lf +:+ "TOTAL 50%") = Some "50%"
  /\ first_total_token ("TOTAL" +:+ lf +:+ "TOTAL 50%") = None
  /\ ~ (forall output, re_search output = first_total_token output).
Proof.
  split; [reflexivity|]. split; [reflexivity|].
  intros Hall. specialize (Hall ("TOTAL" +:+ lf +:+ "TOTAL 50%")).
  vm_compute in Hall. discriminate.
Qed.

(** C10, amended. The extraction is a function of the output. It
    returns the leftmost percentage token that follows, on the same
    line, the first occurrence of [TOTAL] that has such a token after
    it on its line; when the first occurrence of [TOTAL] has one, that
    token is the result; and text that comes after the match, such as
    later [TOTAL] rows, does not change the result. *)
Theorem re_search_first_total :
  (forall output, re_search output = first_total_with_token output)
  /\ (forall output t, first_total_token output = Some t -> re_search output = Some t)
  /\ (forall row rest t, re_search row = Some t -> re_search (row +:+ rest) = Some t).
Proof.
  split; [exact re_search_first_with_token|]. split.
  - intros output t Ht. rewrite re_search_first_with_token.
    now apply first_total_token_with_token.
  - exact re_search_app.
Qed.

(** C10, on an output with two [TOTAL] rows. *)
Lemma re_search_first_total_witness :
  re_search ("TOTAL 10 2 80%" +:+ lf +:+ "TOTAL 20 8 60%") = Some "80%".
Proof.
  destruct re_search_first_total as (_ & Hfirst & Happ).
  apply (Happ "TOTAL 10 2 80%" (lf +:+ "TOTAL 20 8 60%") "80%").
  apply (Hfirst "TOTAL 10 2 80%" "80%"). reflexivity.
Defined.

End CoverageFigure.

(** ** [coverage_open] *)

Module CoverageOpen.
Import PyStr Pathlib Effects EffectsFacts Utils Tests.

(** C8. When the index file of the combined report does not exist,
    [coverage_open] prints the guidance message, ends with the exit
    code 1 and opens no browser; it opens the browser, and only then,
    when the index file exists. *)
Theorem coverage_open_guard `{Externals} (toolbox : Toolbox) (st : state) :
  let report_index := reports_directory toolbox </> "coverage-report" </> "index.html" in
  (fs st !! report_index = None ->
   coverage_open toolbox st
   = (Raise (ClickExit 1),
      mkState (fs st) (trace st ++ [ESecho (report_missing_message report_index) "red"])))
  /\ (is_Some (fs st !! report_index) ->
      coverage_open toolbox st
      = (Ok tt,
         mkState (fs st)
           (trace st ++ [EBrowser ("file:///" +:+ str (absolute report_index))])))
  /\ (existsb is_browser (added st (snd (coverage_open toolbox st))) = true <->
      is_Some (fs st !! report_index)).
Proof.
  intros report_index.
  assert (Hnone : fs st !! report_index = None ->
    coverage_open toolbox st
    = (Raise (ClickExit 1),
       mkState (fs st) (trace st ++ [ESecho (report_missing_message report_index) "red"]))).
  { intros Hn. unfold coverage_open, bind, path_exists. fold report_index.
    rewrite Hn. rewrite bool_decide_eq_false_2 by (intros [x Hx]; discriminate).
    reflexivity. }
  assert (Hsome : is_Some (fs st !! report_index) ->
    coverage_open toolbox st
    = (Ok tt,
       mkState (fs st)
         (trace st ++ [EBrowser ("file:///" +:+ str (absolute report_index))]))).
  { intros Hs. unfold coverage_open, bind, path_exists. fold report_index.
    rewrite bool_decide_eq_true_2 by exact Hs. reflexivity. }
  split; [exact Hnone|]. split; [exact Hsome|].
  destruct (fs st !! report_index) as [text|] eqn:E.
  - rewrite Hsome by eauto. simpl snd. rewrite added_app. simpl. split; eauto.
  - rewrite Hnone by reflexivity. simpl snd. rewrite added_app. simpl.
    split; [discriminate | intros [x Hx]; discriminate].
Qed.

(** C8, on a project with no report: exit code 1, no browser. *)
Lemma coverage_open_guard_witness :
  fst (@coverage_open (Demo.externals_of (Demo.constant_shell 0 ""))
         (mkToolbox ["src"] (Some ["tests"]) ["reports"] ["unit"; "integration"])
         Demo.empty_state)
  = Raise (ClickExit 1).
Proof.
  destruct (@coverage_open_guard (Demo.externals_of (Demo.constant_shell 0 ""))
              (mkToolbox ["src"] (Some ["tests"]) ["reports"] ["unit"; "integration"])
              Demo.empty_state) as (Hnone & _ & _).
  rewrite Hnone; reflexivity.
Defined.

End CoverageOpen.

(** ** The coverage aggregator: [coverage_report] *)

Module Aggregation.
Import PyStr PyStrFacts Pathlib Effects EffectsFacts Utils Regex Tests AggregationSpec.

Section Facts.
Context `{Externals}.

Lemma step_absent (toolbox : Toolbox) (files : list string) (c : string) (st : state) :
  fs st !! coverage_dat_of toolbox c = None ->
  coverage_report_step toolbox files c st
  = (Ok files,
     mkState (fs st)
       (trace st ++ [ESecho (missing_dat_warning c (coverage_dat_of toolbox c)) "yellow"])).
Proof.
  intros Hn. unfold coverage_report_step, bind, path_exists. rewrite Hn.
  rewrite bool_decide_eq_false_2 by (intros [x Hx]; discriminate). reflexivity.
Qed.

Lemma step_Ok (toolbox : Toolbox) (files files' : list string) (c : string) (st st' : state) :
  coverage_report_step toolbox files c st = (Ok files', st') ->
  (fs st !! coverage_dat_of toolbox c = None /\ files' = files
   /\ st' = mkState (fs st)
       (trace st ++ [ESecho (missing_dat_warning c (coverage_dat_of toolbox c)) "yellow"]))
  \/ (exists temp_copy out files1 total text,
        is_Some (fs st !! coverage_dat_of toolbox c)
        /\ shell (coverage_report_cmd (coverage_dat_of toolbox c)) [] (fs st) = (0%Z, out, files1)
        /\ re_search out = Some total
        /\ temp_copy_of (coverage_dat_of toolbox c) = Some temp_copy
        /\ temp_copy <> coverage_dat_of toolbox c
        /\ files1 !! coverage_dat_of toolbox c = Some text
        /\ files' = files ++ [str temp_copy]
        /\ st' = mkState (<[temp_copy := text]> files1)
             (trace st ++ [ERun (coverage_report_cmd (coverage_dat_of toolbox c)) [];
                           EPrint (title c +:+ " test coverage: " +:+ total);
                           ECopy (coverage_dat_of toolbox c) temp_copy])).
Proof.
  destruct (fs st !! coverage_dat_of toolbox c) as [text0|] eqn:Hdat.
  - intros Hstep. right. revert Hstep.
    cbv [coverage_report_step bind path_exists]. rewrite Hdat.
    rewrite bool_decide_eq_true_2 by eauto.
    cbv [negb _get_total_coverage bind ctx_run ret print emit raise fs trace].
    destruct (shell _ [] _) as [[code out] files1] eqn:Hsh.
    destruct (code =? 0)%Z eqn:Hcode; [|discriminate].
    apply Z.eqb_eq in Hcode. subst code.
    destruct (re_search out) as [total|] eqn:Hre; [|discriminate].
    destruct (temp_copy_of (coverage_dat_of toolbox c)) as [temp_copy|] eqn:Htemp; [|discriminate].
    cbv [shutil_copy fs trace].
    destruct (files1 !! coverage_dat_of toolbox c) as [text|] eqn:Htext; [|discriminate].
    destruct (decide (coverage_dat_of toolbox c = temp_copy)) as [Heq|Hne]; [discriminate|].
    intros [= <- <-].
    exists temp_copy, out, files1, total, text.
    rewrite <- !List.app_assoc. simpl. repeat split; eauto.
  - intros Hstep. left. rewrite (step_absent _ _ _ _ Hdat) in Hstep.
    injection Hstep as <- <-. auto.
Qed.


Lemma loop_cons (toolbox : Toolbox) (files : list string) (c : string)
    (rest : list string) (st : state) :
  coverage_report_loop toolbox files (c :: rest) st =
  match coverage_report_step toolbox files c st with
  | (Ok files', st') => coverage_report_loop toolbox files' rest st'
  | (Raise e, st') => (Raise e, st')
  end.
Proof. reflexivity. Qed.

(** What a completed loop has done: the list it gives holds the
    destinations of the copies it made, in order; a copy is made from
    the data file of a test type to its [-copy] name, a different path;
    and each test type was either copied or reported missing. *)
Lemma loop_Ok (toolbox : Toolbox) (cats : list string) :
  forall (files files' : list string) (st st' : state),
  coverage_report_loop toolbox files cats st = (Ok files', st') ->
  exists events,
    trace st' = trace st ++ events
    /\ files' = files ++ map (fun sd => str (snd sd)) (copies_of events)
    /\ (forall src dst, In (src, dst) (copies_of events) ->
        exists c, In c cats /\ src = coverage_dat_of toolbox c
          /\ temp_copy_of src = Some dst /\ dst <> src)
    /\ (forall c, In c cats ->
        (exists dst, In (coverage_dat_of toolbox c, dst) (copies_of events))
        \/ In (ESecho (missing_dat_warning c (coverage_dat_of toolbox c)) "yellow") events).
Proof.
  induction cats as [|c rest IH]; intros files files' st st'.
  - intros [= <- <-]. exists []. rewrite !app_nil_r. simpl.
    repeat split; intros; contradiction.
  - rewrite loop_cons.
    destruct (coverage_report_step toolbox files c st) as [[files1|e] st1] eqn:Hstep;
      [|discriminate].
    intros Hloop. destruct (IH _ _ _ _ Hloop) as (ev & Htr & Hfiles & Hcopies & Hall).
    destruct (step_Ok _ _ _ _ _ _ Hstep) as
      [(Hdat & -> & ->) | (t & out & files2 & total & text & Hdat & Hsh & Hre & Ht & Hne & Htext & -> & ->)].
    + exists (ESecho (missing_dat_warning c (coverage_dat_of toolbox c)) "yellow" :: ev).
      simpl in Htr. rewrite <- List.app_assoc in Htr. simpl in Htr.
      split; [exact Htr|]. split; [exact Hfiles|]. split.
      * intros src dst Hin. destruct (Hcopies src dst Hin) as (c' & Hc' & Hrest).
        exists c'. split; [now right | exact Hrest].
      * intros c' [<-|Hc'].
        -- right. now left.
        -- destruct (Hall c' Hc') as [[dst Hd]|Hw]; [left; eauto | right; now right].
    + exists ([ERun (coverage_report_cmd (coverage_dat_of toolbox c)) [];
               EPrint (title c +:+ " test coverage: " +:+ total);
               ECopy (coverage_dat_of toolbox c) t] ++ ev).
      simpl in Htr. rewrite <- List.app_assoc in Htr.
      split; [exact Htr|]. rewrite copies_of_app. simpl. split.
      * rewrite Hfiles, <- List.app_assoc. reflexivity.
      * split.
        -- intros src dst [[= <- <-]|Hin].
           ++ exists c. split; [now left|]. auto.
           ++ destruct (Hcopies src dst Hin) as (c' & Hc' & Hrest).
              exists c'. split; [now right | exact Hrest].
        -- intros c' [<-|Hc'].
           ++ left. exists t. now left.
           ++ destruct (Hall c' Hc') as [[dst Hd]|Hw].
              ** left. exists dst. now right.
              ** right. do 3 right. exact Hw.
Qed.

(** The figures that a completed loop has printed: each is the one the
    search finds in what the coverage tool reports on the data file of
    a test type. *)
Lemma loop_prints (toolbox : Toolbox) (cats : list string) :
  forall (files files' : list string) (st st' : state),
  coverage_report_loop toolbox files cats st = (Ok files', st') ->
  exists events,
    trace st' = trace st ++ events
    /\ forall text, In (EPrint text) events ->
       exists c files0 out0 files1 total0,
         In c cats
         /\ shell (coverage_report_cmd (coverage_dat_of toolbox c)) [] files0
            = (0%Z, out0, files1)
         /\ re_search out0 = Some total0
         /\ text = title c +:+ " test coverage: " +:+ total0.
Proof.
  induction cats as [|c rest IH]; intros files files' st st'.
  - intros [= <- <-]. exists []. rewrite app_nil_r. split; [reflexivity|]. intros text [].
  - rewrite loop_cons.
    destruct (coverage_report_step toolbox files c st) as [[files1|e] st1] eqn:Hstep;
      [|discriminate].
    intros Hloop. destruct (IH _ _ _ _ Hloop) as (ev & Htr & Hprints).
    assert (Hrest : forall text, In (EPrint text) ev ->
              exists c0 files0 out0 files2 total0,
                In c0 (c :: rest)
                /\ shell (coverage_report_cmd (coverage_dat_of toolbox c0)) [] files0
                   = (0%Z, out0, files2)
                /\ re_search out0 = Some total0
                /\ text = title c0 +:+ " test coverage: " +:+ total0).
    { intros text Hin.
      destruct (Hprints text Hin) as (c0 & files0 & out0 & files2 & total0 & Hc0 & Hrest).
      exists c0, files0, out0, files2, total0. split; [now right | exact Hrest]. }
    destruct (step_Ok _ _ _ _ _ _ Hstep) as
      [(Hdat & -> & ->) | (t & out & files2 & total & text & Hdat & Hsh & Hre & Ht & Hne & Htext & -> & ->)].
    + exists (ESecho (missing_dat_warning c (coverage_dat_of toolbox c)) "yellow" :: ev).
      simpl in Htr. rewrite <- List.app_assoc in Htr. split; [exact Htr|].
      intros text' [Heq|Hin]; [discriminate Heq | now apply Hrest].
    + exists ([ERun (coverage_report_cmd (coverage_dat_of toolbox c)) [];
               EPrint (title c +:+ " test coverage: " +:+ total);
               ECopy (coverage_dat_of toolbox c) t] ++ ev).
      simpl in Htr. rewrite <- List.app_assoc in Htr. split; [exact Htr|].
      intros text' [Heq|[Heq|[Heq|Hin]]]; try discriminate Heq; [|now apply Hrest].
      injection Heq as <-.
      exists c, (fs st), out, files2, total. split; [now left|]. auto.
Qed.

Lemma loop_all_absent (toolbox : Toolbox) (cats : list string) :
  forall (files : list string) (st : state),
  (forall c, In c cats -> fs st !! coverage_dat_of toolbox c = None) ->
  coverage_report_loop toolbox files cats st
  = (Ok files,
     mkState (fs st)
       (trace st ++
        map (fun c => ESecho (missing_dat_warning c (coverage_dat_of toolbox c)) "yellow") cats)).
Proof.
  induction cats as [|c rest IH]; intros files st Habs.
  - simpl. rewrite app_nil_r. now destruct st.
  - rewrite loop_cons, step_absent by (apply Habs; now left).
    rewrite IH by (intros c' Hc'; apply Habs; now right).
    simpl. now rewrite <- List.app_assoc.
Qed.

Lemma coverage_report_eq (toolbox : Toolbox) (st : state) :
  coverage_report toolbox st =
  match coverage_report_loop toolbox [] (test_types toolbox) (loop_start toolbox st) with
  | (Raise e, st_l) => (Raise e, st_l)
  | (Ok files, st_l) =>
      let cmd := combine_cmd (coverage_dat_combined toolbox) files (coverage_html toolbox) in
      match shell cmd [] (fs st_l) with
      | (code, _, files_c) =>
          let st_c := mkState files_c (trace st_l ++ [ERun cmd []]) in
          if (code =? 0)%Z then
            match _get_total_coverage (coverage_dat_combined toolbox) st_c with
            | (Raise e, st_r) => (Raise e, st_r)
            | (Ok total, st_r) =>
                (Ok tt,
                 mkState (fs st_r)
                   (trace st_r ++ [EPrint ("Total coverage: " +:+ total +:+ lf);
                                   EPrint (refer_message (coverage_html toolbox))]))
            end
          else (Raise (UnexpectedExit cmd code), st_c)
      end
  end.
Proof.
  cbv [coverage_report bind print_header ensure_reports_dir emit].
  change (mkState (fs {| fs := fs st; trace := trace st ++ [EHeader "Generating coverage report" None (Some "📃")] |})
            (trace {| fs := fs st; trace := trace st ++ [EHeader "Generating coverage report" None (Some "📃")] |}
             ++ [EEnsureReportsDir (reports_directory toolbox)]))
    with (mkState (fs st)
            ((trace st ++ [EHeader "Generating coverage report" None (Some "📃")])
             ++ [EEnsureReportsDir (reports_directory toolbox)])).
  rewrite <- List.app_assoc. simpl app. fold (loop_start toolbox st).
  destruct (coverage_report_loop toolbox [] (test_types toolbox) (loop_start toolbox st))
    as [[files|e] st_l]; [|reflexivity].
  cbv [ctx_run]. fold (coverage_dat_combined toolbox) (coverage_html toolbox).
  destruct (shell _ [] (fs st_l)) as [[code out] files_c].
  cbv zeta. destruct (code =? 0)%Z; [|reflexivity].
  destruct (_get_total_coverage (coverage_dat_combined toolbox) _) as [[total|e] st_r];
    [|reflexivity].
  cbv [print emit]. simpl. now rewrite <- List.app_assoc.
Qed.

End Facts.

(** What a completed run of [coverage_report] has done after its loop:
    the combine step, the report on the combined data, two prints. *)
Lemma coverage_report_Ok `{Externals} (toolbox : Toolbox) (st st' : state) :
  coverage_report toolbox st = (Ok tt, st') ->
  exists files st_l files_r total,
    coverage_report_loop toolbox [] (test_types toolbox) (loop_start toolbox st)
    = (Ok files, st_l)
    /\ st' = mkState files_r
         (trace st_l
          ++ [ERun (combine_cmd (coverage_dat_combined toolbox) files
                      (coverage_html toolbox)) [];
              ERun (coverage_report_cmd (coverage_dat_combined toolbox)) [];
              EPrint ("Total coverage: " +:+ total +:+ lf);
              EPrint (refer_message (coverage_html toolbox))]).
Proof.
  rewrite coverage_report_eq.
  destruct (coverage_report_loop toolbox [] (test_types toolbox) (loop_start toolbox st))
    as [[files|e] st_l]; [|discriminate].
  cbv zeta.
  destruct (shell _ [] (fs st_l)) as [[code out_c] files_c].
  destruct (code =? 0)%Z; [|discriminate].
  cbv [_get_total_coverage bind ctx_run]; cbn [fs trace].
  destruct (shell _ [] files_c) as [[code' out] files_r].
  destruct (code' =? 0)%Z; [|discriminate].
  destruct (re_search out) as [total|]; [|discriminate].
  intros [= <-]. exists files, st_l, files_r, total.
  split; [reflexivity|]. cbv [ret]. cbn [fs trace].
  now rewrite <- !List.app_assoc.
Qed.

(** C4. When [coverage_report] completes, the combined figure it prints
    is a token of what the coverage tool reports when it is run with
    [COVERAGE_FILE] set to the single data file [coverage.dat] of the
    reports directory, after the combine step has been run on the same
    [coverage.dat] with, for inputs, the copies of the data files of
    the test types that the loop has made. The figure is found by the
    same search for the [TOTAL] row as the figures of the test types,
    which come from the reports on their own data files; it is taken
    from the tool's output as it is, and no figure of a test type
    enters it. *)
Theorem coverage_report_total `{Externals} (toolbox : Toolbox) (st st' : state) :
  coverage_report toolbox st = (Ok tt, st') ->
  let reports := reports_directory toolbox in
  let combined := reports ++ ["coverage.dat"] in
  let report_of := fun dat : Path =>
    lf +:+ "        export COVERAGE_FILE=" +:+ dquote +:+ str dat +:+ dquote +:+ lf
    +:+ "        coverage report" in
  exists before copies out_c files_b files_c out files_r total,
    let inputs := map (fun sd : Path * Path => str (snd sd)) copies in
    let combine :=
      lf +:+ "            export COVERAGE_FILE=" +:+ dquote +:+ str combined +:+ dquote +:+ lf
      +:+ "            coverage combine " +:+ join " " inputs +:+ lf
      +:+ "            coverage html -d " +:+ str (reports ++ ["coverage-report"]) +:+ lf
      +:+ "        " in
    added st st'
    = before
      ++ [ERun combine [];
          ERun (report_of combined) [];
          EPrint ("Total coverage: " +:+ total +:+ lf);
          EPrint (refer_message (reports ++ ["coverage-report"]))]
    /\ coverage_report_loop toolbox [] (test_types toolbox) (loop_start toolbox st)
       = (Ok inputs, mkState files_b (trace st ++ before))
    /\ copies_of before = copies
    /\ (forall src dst, In (src, dst) copies ->
        exists c, In c (test_types toolbox) /\ src = coverage_dat_of toolbox c
          /\ temp_copy_of src = Some dst)
    /\ shell combine [] files_b = (0%Z, out_c, files_c)
    /\ shell (report_of combined) [] files_c = (0%Z, out, files_r)
    /\ fs st' = files_r
    /\ re_search out = Some total
    /\ (exists a b, out = a +:+ total +:+ b)
    /\ (forall text, In (EPrint text) before ->
        exists c files0 out0 files1 total0,
          In c (test_types toolbox)
          /\ shell (report_of (coverage_dat_of toolbox c)) [] files0 = (0%Z, out0, files1)
          /\ re_search out0 = Some total0
          /\ text = title c +:+ " test coverage: " +:+ total0).
Proof.
  intros Hrun reports combined report_of. revert Hrun.
  rewrite coverage_report_eq.
  destruct (coverage_report_loop toolbox [] (test_types toolbox) (loop_start toolbox st))
    as [[files|e] st_l] eqn:Hloop; [|discriminate].
  cbv zeta.
  destruct (shell _ [] (fs st_l)) as [[code out_c] files_c] eqn:Hcomb.
  destruct (code =? 0)%Z eqn:Hcode; [|discriminate].
  apply Z.eqb_eq in Hcode. subst code.
  cbv [_get_total_coverage bind ctx_run]; cbn [fs trace].
  destruct (shell (coverage_report_cmd (coverage_dat_combined toolbox)) [] files_c)
    as [[code out] files_r] eqn:Hrep.
  destruct (code =? 0)%Z eqn:Hcode; [|discriminate].
  apply Z.eqb_eq in Hcode. subst code.
  destruct (re_search out) as [total|] eqn:Hre; [|discriminate].
  cbv [ret]; cbn [fs trace]. intros [= <-].
  destruct (loop_Ok _ _ _ _ _ _ Hloop) as (ev & Htr & Hfiles & Hcopies & _).
  destruct (loop_prints _ _ _ _ _ _ Hloop) as (ev' & Htr' & Hprints).
  assert (ev' = ev) as -> by (rewrite Htr in Htr'; now apply app_inv_head in Htr').
  cbn [loop_start trace] in Htr. rewrite <- List.app_assoc in Htr. cbn [app] in Htr.
  cbn [app] in Hfiles.
  destruct st_l as [files_b trace_l]. cbn [fs trace] in *. subst trace_l files.
  exists ([EHeader "Generating coverage report" None (Some "📃");
           EEnsureReportsDir (reports_directory toolbox)] ++ ev),
    (copies_of ev), out_c, files_b, files_c, out, files_r, total.
  cbv zeta. split; [|split; [|split; [|split; [|split; [|split; [|split; [|split; [|split]]]]]]]].
  - unfold added. cbn [trace].
    rewrite <- !List.app_assoc. cbn [app].
    rewrite drop_app_length. reflexivity.
  - reflexivity.
  - reflexivity.
  - intros src dst Hin. destruct (Hcopies src dst Hin) as (c & Hc & Hsrc & Ht & _).
    now exists c.
  - exact Hcomb.
  - exact Hrep.
  - reflexivity.
  - exact Hre.
  - destruct (RegexFacts.re_search_sound _ _ Hre) as (a & r & -> & Hl).
    destruct (RegexFacts.match_lazy_sound _ _ Hl) as (m & rest & -> & _ & _).
    exists (a +:+ "TOTAL" +:+ m), rest.
    now rewrite !PyStrFacts.str_app_assoc.
  - intros text [Heq|[Heq|Hin]]; try discriminate Heq.
    destruct (Hprints text Hin) as (c & files0 & out0 & files1 & total0 & Hrest).
    now exists c, files0, out0, files1, total0.
Qed.

(** C4, on a run with 80% for the unit tests, 60% for the integration
    tests and 75% for the combined data: the figure printed is the 75%
    that the tool reports on [coverage.dat], not the mean 70%. *)
Lemma coverage_report_total_witness :
  let X := Demo.externals_of Demo.coverage_shell in
  In (EPrint ("Total coverage: 75%" +:+ lf))
     (added Demo.both_present (snd (@coverage_report X Demo.toolbox Demo.both_present))).
Proof.
  intros X.
  assert (Hrun : @coverage_report X Demo.toolbox Demo.both_present
                 = (Ok tt, snd (@coverage_report X Demo.toolbox Demo.both_present)))
    by (vm_compute; reflexivity).
  destruct (@coverage_report_total X Demo.toolbox Demo.both_present _ Hrun)
    as (before & copies & out_c & files_b & files_c & out & files_r & total
        & Hadd & _ & _ & _ & _ & Hrep & _ & Hre & _ & _).
  rewrite Hadd. apply in_or_app. right. do 2 right. left.
  vm_compute in Hrep. injection Hrep as <- _. vm_compute in Hre.
  injection Hre as <-. reflexivity.
Defined.

(** The figures that the run of the example prints: the combined one
    is the tool's 75%, not the mean 70% of 80% and 60%. *)
Example coverage_report_prints :
  List.filter (fun e => match e with EPrint _ => true | _ => false end)
    (trace (snd (@coverage_report (Demo.externals_of Demo.coverage_shell)
                   Demo.toolbox Demo.both_present)))
  = [EPrint "Unit test coverage: 80%";
     EPrint "Integration test coverage: 60%";
     EPrint ("Total coverage: 75%" +:+ lf);
     EPrint (refer_message ["reports"; "coverage-report"])].
Proof. vm_compute. reflexivity. Qed.


(** C6. A test type whose data file is absent gets a warning and is
    skipped: its turn of the loop ends well and changes neither the
    files nor the list of copies, and the loop goes on with the test
    types that remain. Whenever the loop ends well the combine step is
    run; so it is when every data file is absent, each test type
    having had its warning. *)
Theorem coverage_report_missing_dat `{Externals} (toolbox : Toolbox) :
  (forall files c rest st,
     fs st !! coverage_dat_of toolbox c = None ->
     let warned :=
       mkState (fs st)
         (trace st ++ [ESecho (missing_dat_warning c (coverage_dat_of toolbox c)) "yellow"]) in
     coverage_report_step toolbox files c st = (Ok files, warned)
     /\ coverage_report_loop toolbox files (c :: rest) st
        = coverage_report_loop toolbox files rest warned)
  /\ (forall st files st_l,
        coverage_report_loop toolbox [] (test_types toolbox) (loop_start toolbox st)
        = (Ok files, st_l) ->
        In (ERun (combine_cmd (coverage_dat_combined toolbox) files (coverage_html toolbox)) [])
           (added st (snd (coverage_report toolbox st))))
  /\ (forall st,
        (forall c, In c (test_types toolbox) -> fs st !! coverage_dat_of toolbox c = None) ->
        let events := added st (snd (coverage_report toolbox st)) in
        In (ERun (combine_cmd (coverage_dat_combined toolbox) [] (coverage_html toolbox)) [])
           events
        /\ forall c, In c (test_types toolbox) ->
             In (ESecho (missing_dat_warning c (coverage_dat_of toolbox c)) "yellow") events).
Proof.
  assert (Hreach : forall st files st_l,
    coverage_report_loop toolbox [] (test_types toolbox) (loop_start toolbox st)
    = (Ok files, st_l) ->
    exists events rest,
      trace st_l = trace st ++ events
      /\ added st (snd (coverage_report toolbox st))
         = events ++ ERun (combine_cmd (coverage_dat_combined toolbox) files
                             (coverage_html toolbox)) [] :: rest).
  { intros st files st_l Hloop.
    destruct (loop_Ok _ _ _ _ _ _ Hloop) as (ev & Htr & _).
    simpl in Htr. rewrite <- List.app_assoc in Htr.
    rewrite coverage_report_eq, Hloop. cbv zeta.
    destruct (shell _ [] (fs st_l)) as [[code out_c] files_c].
    destruct (code =? 0)%Z.
    - destruct (_get_total_coverage _ _) as [[total|e] st_r] eqn:Hrun.
      + revert Hrun. cbv [_get_total_coverage bind ctx_run]; cbn [fs trace].
        destruct (shell _ [] files_c) as [[code' out] files_r].
        destruct (code' =? 0)%Z; [|discriminate].
        destruct (re_search out); [|discriminate].
        intros [= <- <-]. do 2 eexists. split; [exact Htr|].
        unfold added. simpl. rewrite Htr, <- !List.app_assoc, drop_app_length.
        reflexivity.
      + revert Hrun. cbv [_get_total_coverage bind ctx_run]; cbn [fs trace].
        destruct (shell _ [] files_c) as [[code' out] files_r].
        destruct (code' =? 0)%Z.
        * destruct (re_search out); [discriminate|].
          intros [= <- <-]. do 2 eexists. split; [exact Htr|].
          unfold added. simpl. rewrite Htr, <- !List.app_assoc, drop_app_length.
          reflexivity.
        * intros [= <- <-]. do 2 eexists. split; [exact Htr|].
          unfold added. simpl. rewrite Htr, <- !List.app_assoc, drop_app_length.
          reflexivity.
    - do 2 eexists. split; [exact Htr|].
      unfold added. simpl. rewrite Htr, <- !List.app_assoc, drop_app_length.
      reflexivity. }
  split; [|split].
  - intros files c rest st Hn warned. split.
    + now apply step_absent.
    + rewrite loop_cons, step_absent by exact Hn. reflexivity.
  - intros st files st_l Hloop.
    destruct (Hreach st files st_l Hloop) as (events & rest & _ & ->).
    apply in_or_app. right. now left.
  - intros st Habs events.
    pose proof (loop_all_absent toolbox (test_types toolbox) [] (loop_start toolbox st) Habs)
      as Hloop.
    destruct (Hreach st _ _ Hloop) as (ev & rest & Htr & Hadd).
    subst events. rewrite Hadd. split.
    + apply in_or_app. right. now left.
    + intros c Hc. apply in_or_app. left.
      simpl in Htr. rewrite <- List.app_assoc in Htr.
      apply app_inv_head in Htr. subst ev.
      right. right. apply in_map_iff. now exists c.
Qed.

(** C6, on a run in which the data file of the unit tests is absent. *)
Lemma coverage_report_missing_dat_witness :
  @coverage_report_step (Demo.externals_of Demo.coverage_shell) Demo.toolbox []
    "unit" Demo.unit_absent
  = (Ok [],
     mkState (fs Demo.unit_absent)
       [ESecho "Could not find coverage dat file for unit tests: reports/coverage-unit.dat"
          "yellow"]).
Proof.
  destruct (@coverage_report_missing_dat (Demo.externals_of Demo.coverage_shell)
              Demo.toolbox) as (Hstep & _ & _).
  destruct (Hstep [] "unit" ["integration"] Demo.unit_absent eq_refl) as [Hs _].
  exact Hs.
Defined.

(** The same run, as a whole: the integration tests are still
    processed and the combine step gets their copy alone. *)
Example coverage_report_unit_absent :
  List.filter (fun e => match e with ERun _ _ | ESecho _ _ | ECopy _ _ => true | _ => false end)
    (trace (snd (@coverage_report (Demo.externals_of Demo.coverage_shell)
                   Demo.toolbox Demo.unit_absent)))
  = [ESecho "Could not find coverage dat file for unit tests: reports/coverage-unit.dat"
       "yellow";
     ERun (coverage_report_cmd ["reports"; "coverage-integration.dat"]) [];
     ECopy ["reports"; "coverage-integration.dat"] ["reports"; "coverage-integration-copy.dat"];
     ERun (combine_cmd ["reports"; "coverage.dat"] ["reports/coverage-integration-copy.dat"]
             ["reports"; "coverage-report"]) [];
     ERun (coverage_report_cmd ["reports"; "coverage.dat"]) []].
Proof. vm_compute. reflexivity. Qed.


Lemma temp_copy_of_name (src dst : Path) :
  temp_copy_of src = Some dst -> dst = temp_name_of src.
Proof.
  unfold temp_copy_of, with_name, temp_name_of.
  destruct (String.eqb (name src) ""); [discriminate|].
  destruct (valid_name _); [|discriminate].
  now intros [= <-].
Qed.

(** C7. The code breaks the claim, and the comment of its own loop
    (the copies are made because the combine step erases its inputs),
    on the test types [unit] and [unit-copy], both with a data file:
    the temporary copy of the first data file has the path of the
    second data file, which is overwritten with the data of the unit
    tests and then given to the combine step. *)
Lemma originals_kept_counterexample :
  let X := Demo.externals_of (Demo.constant_shell 0 (Demo.report_text "10      2    80%")) in
  let st' := snd (@coverage_report X Demo.clash_toolbox Demo.clash_state) in
  let files := ["reports/coverage-unit-copy.dat"; "reports/coverage-unit-copy-copy.dat"] in
  @coverage_report X Demo.clash_toolbox Demo.clash_state = (Ok tt, st')
  /\ In (ERun (combine_cmd (coverage_dat_combined Demo.clash_toolbox) files
                 (coverage_html Demo.clash_toolbox)) [])
        (trace st')
  /\ In (str (coverage_dat_of Demo.clash_toolbox "unit-copy")) files
  /\ fs Demo.clash_state !! coverage_dat_of Demo.clash_toolbox "unit-copy"
     = Some "unit-copy data"
  /\ fs st' !! coverage_dat_of Demo.clash_toolbox "unit-copy" = Some "unit data"
  /\ ~ @originals_kept X Demo.clash_toolbox Demo.clash_state.
Proof.
  intros X st' files.
  assert (Hrun : @coverage_report X Demo.clash_toolbox Demo.clash_state = (Ok tt, st'))
    by (vm_compute; reflexivity).
  assert (Hin : In (ERun (combine_cmd (coverage_dat_combined Demo.clash_toolbox) files
                            (coverage_html Demo.clash_toolbox)) [])
                   (trace st'))
    by (vm_compute; do 8 right; left; reflexivity).
  split; [exact Hrun|]. split; [exact Hin|].
  split; [left; reflexivity|]. split; [reflexivity|]. split; [vm_compute; reflexivity|].
  intros Hkept.
  apply (Hkept st' files Hrun Hin "unit-copy"); [right | ]; left; reflexivity.
Qed.

(** X12. When [coverage_report] completes: the copies are made
    before the combine step is run; the paths given to the combine
    step are the destinations of these copies, in order, and nothing
    else; each copy goes from the data file of a test type to its
    [-copy] name, a path other than that of the data file it is taken
    from; each test type was either copied or reported missing; and no
    data file of a test type is given to the combine step, provided no
    test type has for data file the [-copy] name of another's. *)
Theorem coverage_report_copies `{Externals} (toolbox : Toolbox) (st st' : state) :
  coverage_report toolbox st = (Ok tt, st') ->
  exists files before after,
    added st st'
    = before
      ++ ERun (combine_cmd (coverage_dat_combined toolbox) files (coverage_html toolbox)) []
      :: after
    /\ copies_of after = []
    /\ files = map (fun sd => str (snd sd)) (copies_of before)
    /\ (forall src dst, In (src, dst) (copies_of before) ->
        exists c, In c (test_types toolbox) /\ src = coverage_dat_of toolbox c
          /\ dst = temp_name_of src /\ dst <> src)
    /\ (forall c, In c (test_types toolbox) ->
        In (coverage_dat_of toolbox c, temp_name_of (coverage_dat_of toolbox c))
           (copies_of before)
        \/ In (ESecho (missing_dat_warning c (coverage_dat_of toolbox c)) "yellow") before)
    /\ (no_clash toolbox = true ->
        forall c, In c (test_types toolbox) -> ~ In (str (coverage_dat_of toolbox c)) files).
Proof.
  intros Hrun.
  destruct (coverage_report_Ok _ _ _ Hrun)
    as (files & st_l & files_r & total & Hloop & ->).
  destruct (loop_Ok _ _ _ _ _ _ Hloop) as (ev & Htr & Hfiles & Hcopies & Hall).
  simpl in Htr. rewrite <- List.app_assoc in Htr. simpl in Hfiles.
  exists files,
    ([EHeader "Generating coverage report" None (Some "📃");
      EEnsureReportsDir (reports_directory toolbox)] ++ ev),
    [ERun (coverage_report_cmd (coverage_dat_combined toolbox)) [];
     EPrint ("Total coverage: " +:+ total +:+ lf);
     EPrint (refer_message (coverage_html toolbox))].
  assert (Hcp : forall src dst, In (src, dst) (copies_of ev) ->
            exists c, In c (test_types toolbox) /\ src = coverage_dat_of toolbox c
              /\ dst = temp_name_of src /\ dst <> src).
  { intros src dst Hin. destruct (Hcopies src dst Hin) as (c & Hc & Hsrc & Ht & Hne).
    exists c. repeat split; auto. now apply temp_copy_of_name. }
  split.
  { unfold added. cbn [trace]. rewrite Htr, <- !List.app_assoc, drop_app_length.
    reflexivity. }
  split; [reflexivity|]. rewrite copies_of_app. cbn [copies_of app].
  split; [exact Hfiles|]. split; [exact Hcp|]. split.
  - intros c Hc. destruct (Hall c Hc) as [[dst Hd]|Hw].
    + left. destruct (Hcp _ _ Hd) as (c' & _ & _ & -> & _). exact Hd.
    + right. right. right. exact Hw.
  - intros Hclash c' Hc' Hin. rewrite Hfiles in Hin.
    apply in_map_iff in Hin as ([src dst] & Heq & Hin). simpl in Heq.
    destruct (Hcp _ _ Hin) as (c & Hc & -> & -> & _).
    unfold no_clash in Hclash.
    rewrite forallb_forall in Hclash. specialize (Hclash c Hc).
    rewrite forallb_forall in Hclash. specialize (Hclash c' Hc').
    apply negb_true_iff, String.eqb_neq in Hclash. congruence.
Qed.

(** X12, on the run with unit and integration tests, which have no
    clash: the combine step gets the two copies and no data file. *)
Lemma coverage_report_copies_witness :
  let X := Demo.externals_of Demo.coverage_shell in
  exists files before after,
    added Demo.both_present (snd (@coverage_report X Demo.toolbox Demo.both_present))
    = before
      ++ ERun (combine_cmd (coverage_dat_combined Demo.toolbox) files
                 (coverage_html Demo.toolbox)) []
      :: after
    /\ files = map (fun sd => str (snd sd)) (copies_of before)
    /\ forall c, In c (test_types Demo.toolbox) ->
         ~ In (str (coverage_dat_of Demo.toolbox c)) files.
Proof.
  intros X.
  assert (Hrun : @coverage_report X Demo.toolbox Demo.both_present
                 = (Ok tt, snd (@coverage_report X Demo.toolbox Demo.both_present)))
    by (vm_compute; reflexivity).
  destruct (@coverage_report_copies X Demo.toolbox Demo.both_present _ Hrun)
    as (files & before & after & Hadd & _ & Hfiles & _ & _ & Hkept).
  exists files, before, after.
  split; [exact Hadd|]. split; [exact Hfiles|].
  apply Hkept. vm_compute. reflexivity.
Defined.

(** The example project has no clash, and the one with [unit-copy]
    has. *)
Example no_clash_examples :
  no_clash Demo.toolbox = true /\ no_clash Demo.clash_toolbox = false.
Proof. split; vm_compute; reflexivity. Qed.

End Aggregation.

(** ** The lint checks *)

Module LintFacts.
Import PyStr Pathlib Effects EffectsFacts Utils Lint LintSpec.

(** Both sides are the same state once the traces are put in one
    shape. *)
Ltac same_trace :=
  cbn [fs trace]; rewrite <- ?List.app_assoc; cbn [app]; reflexivity.

Section Facts.
Context `{Externals}.

Lemma run_pylint_eq (project : Project) (source_dirs : list Path)
    (report_path pylintrc_fpath : Path) (st : state) :
  run_pylint project source_dirs report_path pylintrc_fpath st =
  let cmd := pylint_cmd source_dirs report_path pylintrc_fpath in
  let pre := [EHeader (join ", " (map str source_dirs)) (Some 3) None;
              EEnsureReportsDir (reports_directory project);
              ERun cmd []] in
  match shell cmd [] (fs st) with
  | (code, _, files') =>
      if (code =? 0)%Z then
        (Ok tt, mkState files' (trace st ++ pre ++ [ECPrint no_issues "green"]))
      else
        match files' !! report_path with
        | Some text =>
            (Raise (UnexpectedExit cmd code), mkState files' (trace st ++ pre ++ [EPrint text]))
        | None => (Raise (UnexpectedExit cmd code), mkState files' (trace st ++ pre))
        end
  end.
Proof.
  cbv [run_pylint bind print_header ensure_reports_dir emit try_except_else ctx_run];
    cbn [fs trace].
  destruct (shell _ [] (fs st)) as [[code out] files']. cbv zeta.
  destruct (code =? 0)%Z.
  - cbv [cprint emit]. same_trace.
  - cbv [path_exists read_contents print emit raise ret]; cbn [fs trace].
    destruct (files' !! report_path) as [text|] eqn:E.
    + rewrite bool_decide_eq_true_2 by eauto. cbn [fs trace]. rewrite E. same_trace.
    + rewrite bool_decide_eq_false_2 by (intros [x Hx]; discriminate). same_trace.
Qed.


Lemma lint_pydocstyle_eq (project : Project) (st : state) :
  lint_pydocstyle project st =
  let report := reports_directory project </> "pydocstyle-report.log" in
  let cmd := pydocstyle_cmd project report in
  let pre := [EHeader "documentation style" (Some 2) None;
              EEnsureReportsDir (reports_directory project);
              ERun cmd []] in
  match shell cmd [] (fs st) with
  | (code, _, files') =>
      match files' !! report with
      | Some text =>
          (outcome_of cmd code, mkState files' (trace st ++ pre ++ [EFormatMessages text]))
      | None => (outcome_of cmd code, mkState files' (trace st ++ pre))
      end
  end.
Proof.
  cbv [lint_pydocstyle bind print_header ensure_reports_dir emit try_finally ctx_run
       path_exists read_contents format_messages ret outcome_of];
    cbn [fs trace].
  destruct (shell _ [] (fs st)) as [[code out] files']. cbv zeta.
  destruct (files' !! (reports_directory project </> "pydocstyle-report.log"))
    as [text|] eqn:E.
  - destruct (code =? 0)%Z; cbn [fs trace];
      rewrite bool_decide_eq_true_2 by (rewrite E; eauto); cbn [fs trace];
      rewrite E; same_trace.
  - destruct (code =? 0)%Z; cbn [fs trace];
      rewrite bool_decide_eq_false_2 by (rewrite E; intros [x Hx]; discriminate);
      same_trace.
Qed.

Lemma lint_pycodestyle_eq (project : Project) (st : state) :
  lint_pycodestyle project st =
  let report := reports_directory project </> "pycodestyle-report.log" in
  let cmd := pycodestyle_cmd project report in
  let pre := [EHeader "code style (PEP8)" (Some 2) None;
              EEnsureReportsDir (reports_directory project);
              ERun cmd []] in
  match shell cmd [] (fs st) with
  | (code, _, files') =>
      match files' !! report with
      | Some text =>
          (outcome_of cmd code, mkState files' (trace st ++ pre ++ [EFormatMessages text]))
      | None => (outcome_of cmd code, mkState files' (trace st ++ pre))
      end
  end.
Proof.
  cbv [lint_pycodestyle bind print_header ensure_reports_dir emit try_finally ctx_run
       path_exists read_contents format_messages ret outcome_of];
    cbn [fs trace].
  destruct (shell _ [] (fs st)) as [[code out] files']. cbv zeta.
  destruct (files' !! (reports_directory project </> "pycodestyle-report.log"))
    as [text|] eqn:E.
  - destruct (code =? 0)%Z; cbn [fs trace];
      rewrite bool_decide_eq_true_2 by (rewrite E; eauto); cbn [fs trace];
      rewrite E; same_trace.
  - destruct (code =? 0)%Z; cbn [fs trace];
      rewrite bool_decide_eq_false_2 by (rewrite E; intros [x Hx]; discriminate);
      same_trace.
Qed.

Lemma lint_pylint_eq (project : Project) (st : state) :
  lint_pylint project st =
  match run_pylint project [source_directory project]
          (reports_directory project </> "pylint-report.log")
          (root_directory project </> ".pylintrc")
          (mkState (fs st) (trace st ++ [EHeader "pylint" (Some 2) None])) with
  | (Ok _, st1) =>
      run_pylint project [tests_directory project]
        (reports_directory project </> "pylint-report-tests.log")
        (tests_directory project </> ".pylintrc") st1
  | (Raise e, st1) => (Raise e, st1)
  end.
Proof. reflexivity. Qed.

(** The pipeline stops at the first check that fails. *)
Lemma lint_eq (project : Project) (st : state) :
  lint project st =
  match lint_pylint project (mkState (fs st) (trace st ++ [EHeader "Linting" None (Some "🔎")])) with
  | (Raise e, st1) => (Raise e, st1)
  | (Ok _, st1) =>
      match lint_pycodestyle project st1 with
      | (Raise e, st2) => (Raise e, st2)
      | (Ok _, st2) => lint_pydocstyle project st2
      end
  end.
Proof.
  cbv [lint _COMMANDS for_each forward bind print_header emit ret].
  destruct (lint_pylint project _) as [[u1|e1] st1]; [|reflexivity].
  destruct (lint_pycodestyle project st1) as [[u2|e2] st2]; [|reflexivity].
  destruct (lint_pydocstyle project st2) as [[[]|e3] st3]; reflexivity.
Qed.


(** Each check starts one child process, whatever its outcome. *)
Lemma run_pylint_trace (project : Project) (source_dirs : list Path)
    (report_path pylintrc_fpath : Path) (st : state) :
  exists files' events,
    snd (run_pylint project source_dirs report_path pylintrc_fpath st)
    = mkState files' (trace st ++ events)
    /\ commands_of events = [pylint_cmd source_dirs report_path pylintrc_fpath].
Proof.
  rewrite run_pylint_eq. cbv zeta.
  destruct (shell _ [] (fs st)) as [[code out] files'].
  destruct (code =? 0)%Z; [|destruct (files' !! report_path)];
    do 2 eexists; (split; [reflexivity|reflexivity]).
Qed.

Lemma lint_pycodestyle_trace (project : Project) (st : state) :
  exists files' events,
    snd (lint_pycodestyle project st) = mkState files' (trace st ++ events)
    /\ commands_of events
       = [pycodestyle_cmd project (reports_directory project </> "pycodestyle-report.log")].
Proof.
  rewrite lint_pycodestyle_eq. cbv zeta.
  destruct (shell _ [] (fs st)) as [[code out] files'].
  destruct (files' !! _); do 2 eexists; (split; [reflexivity|reflexivity]).
Qed.

Lemma lint_pydocstyle_trace (project : Project) (st : state) :
  exists files' events,
    snd (lint_pydocstyle project st) = mkState files' (trace st ++ events)
    /\ commands_of events
       = [pydocstyle_cmd project (reports_directory project </> "pydocstyle-report.log")].
Proof.
  rewrite lint_pydocstyle_eq. cbv zeta.
  destruct (shell _ [] (fs st)) as [[code out] files'].
  destruct (files' !! _); do 2 eexists; (split; [reflexivity|reflexivity]).
Qed.

Lemma lint_pylint_trace (project : Project) (st : state) :
  exists files' events,
    snd (lint_pylint project st) = mkState files' (trace st ++ events)
    /\ ((fst (lint_pylint project st) = Ok tt
         /\ commands_of events = firstn 2 (lint_commands project))
        \/ (exists e, fst (lint_pylint project st) = Raise e)
           /\ (commands_of events = firstn 1 (lint_commands project)
               \/ commands_of events = firstn 2 (lint_commands project))).
Proof.
  rewrite lint_pylint_eq.
  destruct (run_pylint_trace project [source_directory project]
              (reports_directory project </> "pylint-report.log")
              (root_directory project </> ".pylintrc")
              (mkState (fs st) (trace st ++ [EHeader "pylint" (Some 2) None])))
    as (files1 & ev1 & Hst1 & Hc1).
  destruct (run_pylint project [source_directory project] _ _ _) as [[u1|e1] st1].
  - simpl in Hst1. subst st1.
    destruct (run_pylint_trace project [tests_directory project]
                (reports_directory project </> "pylint-report-tests.log")
                (tests_directory project </> ".pylintrc")
                (mkState files1 ((trace st ++ [EHeader "pylint" (Some 2) None]) ++ ev1)))
      as (files2 & ev2 & Hst2 & Hc2).
    destruct (run_pylint project [tests_directory project] _ _ _) as [[[]|e2] st2];
      simpl in Hst2; subst st2;
      exists files2, ([EHeader "pylint" (Some 2) None] ++ ev1 ++ ev2);
      (split; [cbn [snd]; same_trace|]);
      rewrite !commands_of_app, Hc1, Hc2.
    + left. split; reflexivity.
    + right. split; [now exists e2 | right; reflexivity].
  - simpl in Hst1. subst st1.
    exists files1, ([EHeader "pylint" (Some 2) None] ++ ev1).
    split; [cbn [snd]; same_trace|].
    rewrite commands_of_app, Hc1. right. split; [now exists e1 | left; reflexivity].
Qed.

Lemma lint_trace (project : Project) (st : state) :
  exists files' events n,
    snd (lint project st) = mkState files' (trace st ++ events)
    /\ commands_of events = firstn n (lint_commands project)
    /\ (fst (lint project st) = Ok tt -> n = 4).
Proof.
  rewrite lint_eq.
  destruct (lint_pylint_trace project
              (mkState (fs st) (trace st ++ [EHeader "Linting" None (Some "🔎")])))
    as (files1 & ev1 & Hst1 & Hc1).
  destruct (lint_pylint project _) as [[u1|e1] st1].
  - simpl in Hst1, Hc1. subst st1.
    destruct Hc1 as [[_ Hc1] | [[e He] _]]; [|discriminate].
    destruct (lint_pycodestyle_trace project
                (mkState files1 ((trace st ++ [EHeader "Linting" None (Some "🔎")]) ++ ev1)))
      as (files2 & ev2 & Hst2 & Hc2).
    destruct (lint_pycodestyle project _) as [[u2|e2] st2].
    + simpl in Hst2. subst st2.
      destruct (lint_pydocstyle_trace project
                  (mkState files2
                     (((trace st ++ [EHeader "Linting" None (Some "🔎")]) ++ ev1) ++ ev2)))
        as (files3 & ev3 & Hst3 & Hc3).
      exists files3, ([EHeader "Linting" None (Some "🔎")] ++ ev1 ++ ev2 ++ ev3), 4.
      split; [rewrite Hst3; same_trace|].
      split; [|reflexivity].
      rewrite !commands_of_app, Hc1, Hc2, Hc3. reflexivity.
    + simpl in Hst2. subst st2.
      exists files2, ([EHeader "Linting" None (Some "🔎")] ++ ev1 ++ ev2), 3.
      split; [cbn [snd]; same_trace|].
      split; [|discriminate].
      rewrite !commands_of_app, Hc1, Hc2. reflexivity.
  - simpl in Hst1, Hc1. subst st1.
    destruct Hc1 as [[He _] | [_ Hc1]]; [discriminate|].
    destruct Hc1 as [Hc1|Hc1].
    + exists files1, ([EHeader "Linting" None (Some "🔎")] ++ ev1), 1.
      split; [cbn [snd]; same_trace|].
      split; [|discriminate]. rewrite commands_of_app, Hc1. reflexivity.
    + exists files1, ([EHeader "Linting" None (Some "🔎")] ++ ev1), 2.
      split; [cbn [snd]; same_trace|].
      split; [|discriminate]. rewrite commands_of_app, Hc1. reflexivity.
Qed.

End Facts.

(** C3, as stated, fails: when every tool finds nothing, the first
    child process is the static analysis of the sources, and the style
    check comes third. *)
Lemma claimed_order_counterexample :
  let X := Demo.externals_of Demo.clean_shell in
  let ran := commands_of (added Demo.empty_state (snd (@lint X Demo.project Demo.empty_state))) in
  fst (@lint X Demo.project Demo.empty_state) = Ok tt
  /\ ran = lint_commands Demo.project
  /\ ran <> claimed_order Demo.project
  /\ hd_error ran
     = Some "pylint --rcfile .pylintrc src > reports/pylint-report.log".
Proof.
  intros X ran.
  split; [vm_compute; reflexivity|]. split; [vm_compute; reflexivity|].
  split; [|vm_compute; reflexivity].
  vm_compute. discriminate.
Qed.

(** C3, amended. The child processes of the lint pipeline are started
    in the fixed order: the static analysis of the source tree with
    the rule file of the root directory, the static analysis of the
    tests tree with the rule file of the tests directory, the style
    check, the docstring check. What a run starts is a beginning of
    this list, and the whole list when the pipeline ends well. *)
Theorem lint_order `{Externals} (project : Project) (st : state) :
  let ran := commands_of (added st (snd (lint project st))) in
  (exists n, ran = firstn n (lint_commands project))
  /\ ran `prefix_of` lint_commands project
  /\ (fst (lint project st) = Ok tt -> ran = lint_commands project).
Proof.
  intros ran. subst ran.
  destruct (lint_trace project st) as (files' & events & n & -> & Hc & Hok).
  rewrite added_app, Hc. split; [now exists n|]. split.
  - exists (skipn n (lint_commands project)). now rewrite firstn_skipn.
  - intros Hfst. now rewrite (Hok Hfst).
Qed.

(** C3, on the run in which every tool finds nothing. *)
Lemma lint_order_witness :
  commands_of (added Demo.empty_state
                 (snd (@lint (Demo.externals_of Demo.clean_shell) Demo.project
                         Demo.empty_state)))
  = lint_commands Demo.project.
Proof.
  destruct (@lint_order (Demo.externals_of Demo.clean_shell) Demo.project Demo.empty_state)
    as (_ & _ & Hall).
  apply Hall. vm_compute. reflexivity.
Defined.


(** C2, as stated, fails: when the static analysis of the sources
    fails, the pipeline ends with that failure and neither the style
    check nor the docstring check is run. *)
Lemma all_attempted_counterexample :
  let X := Demo.externals_of Demo.pylint_fails_shell in
  let cmd := "pylint --rcfile .pylintrc src > reports/pylint-report.log" in
  @lint X Demo.project Demo.empty_state
  = (Raise (UnexpectedExit cmd 16),
     mkState (<[ ["reports"; "pylint-report.log"] := Demo.pylint_finding ]> ∅)
       [EHeader "Linting" None (Some "🔎");
        EHeader "pylint" (Some 2) None;
        EHeader "src" (Some 3) None;
        EEnsureReportsDir ["reports"];
        ERun cmd [];
        EPrint Demo.pylint_finding])
  /\ ~ @all_attempted X Demo.project Demo.empty_state.
Proof.
  intros X cmd.
  assert (Hrun : @lint X Demo.project Demo.empty_state
    = (Raise (UnexpectedExit cmd 16),
       mkState (<[ ["reports"; "pylint-report.log"] := Demo.pylint_finding ]> ∅)
         [EHeader "Linting" None (Some "🔎");
          EHeader "pylint" (Some 2) None;
          EHeader "src" (Some 3) None;
          EEnsureReportsDir ["reports"];
          ERun cmd [];
          EPrint Demo.pylint_finding])) by (vm_compute; reflexivity).
  split; [exact Hrun|].
  intros Hall.
  specialize (Hall (pycodestyle_cmd Demo.project
                      (reports_directory Demo.project </> "pycodestyle-report.log"))).
  rewrite Hrun in Hall.
  assert (Hin : In (pycodestyle_cmd Demo.project
                      (reports_directory Demo.project </> "pycodestyle-report.log"))
                   (lint_commands Demo.project)) by (do 2 right; left; reflexivity).
  specialize (Hall Hin). vm_compute in Hall.
  destruct Hall as [Heq|[]]. discriminate Heq.
Qed.

(** C2, amended. The lint pipeline stops at the first check that
    fails: it ends with the failure of that check, in the state that
    check left, and the later checks are not run. It ends well exactly
    when the three checks, run in turn, all end well. When the first
    child process ends with a non-zero exit status, it is the only one
    that was started. *)
Theorem lint_fail_fast `{Externals} (project : Project) (st : state) :
  let st0 := mkState (fs st) (trace st ++ [EHeader "Linting" None (Some "🔎")]) in
  let r1 := lint_pylint project st0 in
  let r2 := lint_pycodestyle project (snd r1) in
  let r3 := lint_pydocstyle project (snd r2) in
  (forall e, fst r1 = Raise e -> lint project st = r1)
  /\ (forall e, fst r1 = Ok tt -> fst r2 = Raise e -> lint project st = r2)
  /\ (fst r1 = Ok tt -> fst r2 = Ok tt -> lint project st = r3)
  /\ (fst (lint project st) = Ok tt <->
      fst r1 = Ok tt /\ fst r2 = Ok tt /\ fst r3 = Ok tt)
  /\ (forall code out files',
        shell (hd "" (lint_commands project)) [] (fs st) = (code, out, files') ->
        code <> 0%Z ->
        fst (lint project st) = Raise (UnexpectedExit (hd "" (lint_commands project)) code)
        /\ commands_of (added st (snd (lint project st))) = [hd "" (lint_commands project)]).
Proof.
  intros st0 r1 r2 r3. subst r3 r2 r1.
  split; [|split; [|split; [|split]]].
  - intros e He. rewrite lint_eq. fold st0.
    destruct (lint_pylint project st0) as [[u|e'] s1]; [discriminate | reflexivity].
  - intros e H1 H2. rewrite lint_eq. fold st0.
    destruct (lint_pylint project st0) as [[u|e'] s1]; [|discriminate]. simpl in *.
    destruct (lint_pycodestyle project s1) as [[u2|e2] s2]; [discriminate | reflexivity].
  - intros H1 H2. rewrite lint_eq. fold st0.
    destruct (lint_pylint project st0) as [[u|e'] s1]; [|discriminate]. simpl in *.
    destruct (lint_pycodestyle project s1) as [[u2|e2] s2]; [reflexivity | discriminate].
  - rewrite lint_eq. fold st0.
    destruct (lint_pylint project st0) as [[[]|e'] s1]; simpl.
    + destruct (lint_pycodestyle project s1) as [[[]|e2] s2]; simpl.
      * split; [intros ->; auto | intros (_ & _ & ->); reflexivity].
      * split; [discriminate | intros (_ & Hd & _); discriminate].
    + split; [discriminate | intros (Hd & _); discriminate].
  - intros code out files' Hsh Hcode.
    rewrite lint_eq, lint_pylint_eq, run_pylint_eq. cbv zeta. cbn [fs].
    simpl hd in Hsh. rewrite Hsh.
    apply Z.eqb_neq in Hcode. rewrite Hcode.
    destruct (files' !! _); cbn [fst snd]; (split; [reflexivity|]);
      unfold added; cbn [fs trace]; rewrite <- !List.app_assoc, drop_app_length;
      reflexivity.
Qed.

(** C2, on the run in which the static analysis of the sources
    fails. *)
Lemma lint_fail_fast_witness :
  let X := Demo.externals_of Demo.pylint_fails_shell in
  fst (@lint X Demo.project Demo.empty_state)
  = Raise (UnexpectedExit (hd "" (lint_commands Demo.project)) 16)
  /\ commands_of (added Demo.empty_state (snd (@lint X Demo.project Demo.empty_state)))
     = [hd "" (lint_commands Demo.project)].
Proof.
  intros X.
  destruct (@lint_fail_fast X Demo.project Demo.empty_state) as (_ & _ & _ & _ & Hfirst).
  apply (Hfirst 16%Z ""
           (<[ ["reports"; "pylint-report.log"] := Demo.pylint_finding ]> ∅)).
  - vm_compute. reflexivity.
  - discriminate.
Defined.


(** C1, as stated, fails: the docstring check whose tool ends with the
    exit status 0 shows no success indicator, and hands the report to
    [format_messages] all the same. *)
Lemma quiet_success_counterexample :
  let X := Demo.externals_of Demo.clean_shell in
  let report := ["reports"; "pydocstyle-report.log"] in
  let cmd := "pydocstyle src > reports/pydocstyle-report.log" in
  @shell X cmd [] (fs Demo.empty_state) = (0%Z, "", <[ report := "" ]> ∅)
  /\ @lint_pydocstyle X Demo.project Demo.empty_state
     = (Ok tt,
        mkState (<[ report := "" ]> ∅)
          [EHeader "documentation style" (Some 2) None;
           EEnsureReportsDir ["reports"];
           ERun cmd [];
           EFormatMessages ""])
  /\ ~ @quiet_success X lint_pydocstyle
         (fun p => pydocstyle_cmd p (reports_directory p </> "pydocstyle-report.log")).
Proof.
  intros X report cmd.
  split; [vm_compute; reflexivity|]. split; [vm_compute; reflexivity|].
  intros Hq.
  destruct (Hq Demo.project Demo.empty_state "" (<[ report := "" ]> ∅)) as [Hs _].
  - vm_compute. reflexivity.
  - vm_compute in Hs. discriminate Hs.
Qed.

(** C1, amended. For a static-analysis run ([run_pylint]): when the
    tool ends with the exit status 0, a success indicator is printed
    and no report; when it ends with another status, the text of the
    report file, if the file exists, is printed last and the failure
    [UnexpectedExit] goes on to the caller, and if the file does not
    exist the failure goes on with nothing printed. For the style and
    the docstring checks: the failure goes on to the caller in the
    same way after the text of the report file, if the file exists,
    has been handed to [format_messages]; the report is handed over
    in the same way when the tool ends with the exit status 0, and no
    success indicator is printed. *)
Theorem check_outcomes `{Externals} (project : Project) (st : state) :
  (forall source_dirs report_path pylintrc_fpath code out files',
     let cmd := pylint_cmd source_dirs report_path pylintrc_fpath in
     let r := run_pylint project source_dirs report_path pylintrc_fpath st in
     let events := added st (snd r) in
     shell cmd [] (fs st) = (code, out, files') ->
     (code = 0%Z ->
      fst r = Ok tt /\ success_shown events = true /\ report_shown events = false)
     /\ (code <> 0%Z ->
         fst r = Raise (UnexpectedExit cmd code)
         /\ success_shown events = false
         /\ (forall text, files' !! report_path = Some text ->
             last events = Some (EPrint text))
         /\ (files' !! report_path = None -> report_shown events = false)))
  /\ (forall code out files',
     let report := reports_directory project </> "pycodestyle-report.log" in
     let cmd := pycodestyle_cmd project report in
     let r := lint_pycodestyle project st in
     let events := added st (snd r) in
     shell cmd [] (fs st) = (code, out, files') ->
     fst r = outcome_of cmd code
     /\ success_shown events = false
     /\ (forall text, files' !! report = Some text ->
         last events = Some (EFormatMessages text))
     /\ (files' !! report = None -> report_shown events = false))
  /\ (forall code out files',
     let report := reports_directory project </> "pydocstyle-report.log" in
     let cmd := pydocstyle_cmd project report in
     let r := lint_pydocstyle project st in
     let events := added st (snd r) in
     shell cmd [] (fs st) = (code, out, files') ->
     fst r = outcome_of cmd code
     /\ success_shown events = false
     /\ (forall text, files' !! report = Some text ->
         last events = Some (EFormatMessages text))
     /\ (files' !! report = None -> report_shown events = false)).
Proof.
  split; [|split].
  - intros source_dirs report_path pylintrc_fpath code out files' cmd r events Hsh.
    subst events r. rewrite run_pylint_eq. cbv zeta. fold cmd. rewrite Hsh. split.
    + intros ->. cbn [Z.eqb fst snd]. rewrite added_app. repeat split; reflexivity.
    + intros Hcode. apply Z.eqb_neq in Hcode. rewrite Hcode.
      destruct (files' !! report_path) as [text|]; cbn [fst snd]; rewrite added_app.
      * split; [reflexivity|]. split; [reflexivity|]. split.
        -- now intros text' [= <-].
        -- discriminate.
      * split; [reflexivity|]. split; [reflexivity|]. split.
        -- discriminate.
        -- reflexivity.
  - intros code out files' report cmd r events Hsh.
    subst events r. rewrite lint_pycodestyle_eq. cbv zeta. fold report. fold cmd.
    rewrite Hsh. destruct (files' !! report) as [text|]; cbn [fst snd]; rewrite added_app.
    + split; [reflexivity|]. split; [reflexivity|]. split.
      * now intros text' [= <-].
      * discriminate.
    + split; [reflexivity|]. split; [reflexivity|]. split.
      * discriminate.
      * reflexivity.
  - intros code out files' report cmd r events Hsh.
    subst events r. rewrite lint_pydocstyle_eq. cbv zeta. fold report. fold cmd.
    rewrite Hsh. destruct (files' !! report) as [text|]; cbn [fst snd]; rewrite added_app.
    + split; [reflexivity|]. split; [reflexivity|]. split.
      * now intros text' [= <-].
      * discriminate.
    + split; [reflexivity|]. split; [reflexivity|]. split.
      * discriminate.
      * reflexivity.
Qed.

(** C1, on the run in which the static analysis of the sources fails:
    the report is printed and the failure goes on. *)
Lemma check_outcomes_witness :
  let X := Demo.externals_of Demo.pylint_fails_shell in
  let cmd := pylint_cmd [["src"]] ["reports"; "pylint-report.log"] [".pylintrc"] in
  let r := @run_pylint X Demo.project [["src"]] ["reports"; "pylint-report.log"]
             [".pylintrc"] Demo.empty_state in
  fst r = Raise (UnexpectedExit cmd 16)
  /\ last (added Demo.empty_state (snd r)) = Some (EPrint Demo.pylint_finding).
Proof.
  intros X cmd r.
  destruct (@check_outcomes X Demo.project Demo.empty_state) as (Hpylint & _ & _).
  destruct (Hpylint [["src"]] ["reports"; "pylint-report.log"] [".pylintrc"] 16%Z ""
              (<[ ["reports"; "pylint-report.log"] := Demo.pylint_finding ]> ∅))
    as [_ Hfail].
  - vm_compute. reflexivity.
  - destruct Hfail as (Hr & _ & Hlast & _); [discriminate|].
    split; [exact Hr|]. apply Hlast. vm_compute. reflexivity.
Defined.

End LintFacts.

(** ** The report files *)

Module Reports.
Import PyStr PyStrFacts Pathlib Effects EffectsFacts Utils Lint Tests.
Import LintSpec ReportsSpec AggregationSpec LintFacts.

Lemma split_on_free (sep : ascii) (s : string) :
  str_forall (not_char sep) s = true -> split_on sep s = [s].
Proof.
  induction s as [|c r IH]; [reflexivity|].
  simpl. intros Hs. apply andb_true_iff in Hs as [Hc Hr].
  unfold not_char in Hc. apply negb_true_iff in Hc. now rewrite Hc, (IH Hr).
Qed.

Lemma truediv_component (p : Path) (c : ascii) (r : string) :
  Ascii.eqb c "/" = false ->
  str_forall (not_char "/") r = true ->
  String.eqb (String c r) "." = false ->
  p </> String c r = p ++ [String c r].
Proof.
  intros Hc Hr Hdot. unfold truediv.
  assert (Hroot : root_of (String c r) = []).
  { unfold root_of. destruct (Ascii.eqb_spec c "/") as [->|Hne]; [discriminate|].
    destruct c as [[] [] [] [] [] [] [] []]; try reflexivity. now destruct Hne. }
  rewrite Hroot. unfold parse_parts. rewrite split_on_free.
  - cbn [List.filter]. now rewrite Hdot.
  - simpl. unfold not_char at 1. now rewrite Hc, Hr.
Qed.

(** The data file, and the XML report, of a test type whose name is
    one path component. *)
Lemma coverage_file_simple (reports : Path) (c ext : string) :
  simple_name c -> str_forall (not_char "/") ext = true ->
  reports </> ("coverage-" +:+ c +:+ ext) = reports ++ ["coverage-" +:+ c +:+ ext].
Proof.
  intros Hc Hext.
  change ("coverage-" +:+ c +:+ ext) with (String "c" ("overage-" +:+ c +:+ ext)).
  apply truediv_component; [reflexivity | | reflexivity].
  rewrite !str_forall_app. unfold simple_name in Hc. now rewrite Hc, Hext.
Qed.

Lemma name_last (p : Path) (n : string) :
  is_root n = false -> name (p ++ [n]) = n.
Proof. intros Hn. unfold name. rewrite rev_unit. now rewrite Hn. Qed.

Lemma replace_fuel_forall (p : ascii -> bool) (old new : string) (fuel : nat) :
  str_forall p new = true ->
  forall s, str_forall p s = true -> str_forall p (replace_fuel fuel old new s) = true.
Proof.
  intros Hnew. induction fuel as [|fuel IH]; intros s Hs; [exact Hs|].
  simpl. destruct (strip_prefix old s) as [r|] eqn:Hstrip.
  - apply strip_prefix_Some in Hstrip. subst s.
    rewrite str_forall_app in Hs. apply andb_true_iff in Hs as [_ Hr].
    rewrite str_forall_app, Hnew. now apply IH.
  - destruct s as [|c r]; [reflexivity|].
    simpl in *. apply andb_true_iff in Hs as [Hc Hr]. now rewrite Hc, IH.
Qed.

(** The temporary copy of the data file of a test type whose name is
    one path component. *)
Lemma temp_copy_simple (reports : Path) (c : string) :
  simple_name c ->
  temp_copy_of (reports ++ ["coverage-" +:+ c +:+ ".dat"])
  = Some (reports ++ [replace ".dat" "-copy.dat" ("coverage-" +:+ c +:+ ".dat")]).
Proof.
  intros Hc. unfold temp_copy_of, with_name.
  change ("coverage-" +:+ c +:+ ".dat") with (String "c" ("overage-" +:+ c +:+ ".dat")).
  rewrite name_last by reflexivity.
  cbn [String.eqb Ascii.eqb]. rewrite removelast_last.
  assert (Hv : valid_name (replace ".dat" "-copy.dat"
                             (String "c" ("overage-" +:+ c +:+ ".dat"))) = true).
  { unfold valid_name. apply andb_true_iff. split.
    - unfold replace. cbn [String.length replace_fuel strip_prefix Ascii.eqb]. reflexivity.
    - unfold replace. apply replace_fuel_forall; [reflexivity|].
      change (String "c" ("overage-" +:+ c +:+ ".dat")) with ("coverage-" +:+ c +:+ ".dat").
      rewrite !str_forall_app. unfold simple_name in Hc. now rewrite Hc. }
  now rewrite Hv.
Qed.


Lemma run_tests_event `{Externals} (toolbox : Toolbox) (tests : Path) (name : string)
    (maxfail : Z) (debug : bool) (st : state) :
  Tests.tests_directory toolbox = Some tests ->
  In name (test_types toolbox) ->
  added st (snd (_run_tests toolbox name maxfail debug st))
  = [EHeader ("️Running " +:+ name +:+ " tests️") None (Some "🔎🐛");
     EEnsureReportsDir (Tests.reports_directory toolbox);
     ERun (pytest_cmd toolbox tests name maxfail debug)
       [("COVERAGE_FILE", str (coverage_dat_of toolbox name))]].
Proof.
  intros Htests Hin. unfold _run_tests. rewrite Htests.
  rewrite bool_decide_eq_true_2 by (now apply list_elem_of_In).
  cbv [bind print_header ensure_reports_dir emit ctx_run ret]; cbn [fs trace].
  destruct (shell _ _ (fs st)) as [[code out] files'].
  destruct (code =? 0)%Z; cbn [snd]; rewrite <- !List.app_assoc; apply added_app.
Qed.

(** C9, as stated, fails: the reports of the lint checks have other
    names than [style-report.log], [docstring-report.log],
    [lint-report.log] and [lint-tests-report.log]. *)
Lemma claimed_lint_commands_counterexample :
  let X := Demo.externals_of Demo.clean_shell in
  let ran := commands_of (added Demo.empty_state (snd (@lint X Demo.project Demo.empty_state))) in
  ran
  = ["pylint --rcfile .pylintrc src > reports/pylint-report.log";
     "pylint --rcfile tests/.pylintrc tests > reports/pylint-report-tests.log";
     "pycodestyle --ignore=E501,W503,E231,E203,E402 "
     +:+ "--exclude=.svn,CVS,.bzr,.hg,.git,__pycache__,.tox,*_config_parser.py "
     +:+ "src tests > reports/pycodestyle-report.log";
     "pydocstyle src > reports/pydocstyle-report.log"]
  /\ forall cmd, In cmd (claimed_lint_commands Demo.project) -> ~ In cmd ran.
Proof.
  intros X ran. split; [vm_compute; reflexivity|].
  intros cmd Hclaimed Hran. vm_compute in Hclaimed, Hran.
  repeat (destruct Hclaimed as [<-|Hclaimed]);
    try (repeat (destruct Hran as [Hran|Hran]; [discriminate Hran|]); exact Hran).
  exact Hclaimed.
Qed.

(** C9, amended. The files of the reports directory that the commands
    name are functions of the configuration alone, so that a run
    writes over the files of the run before it. They are:
    [pylint-report.log] and [pylint-report-tests.log] for the static
    analysis, [pycodestyle-report.log] for the style check and
    [pydocstyle-report.log] for the docstring check;
    [coverage-<category>.dat], with [coverage-<category>.xml] and the
    temporary [coverage-<category>-copy.dat], per test type;
    [coverage.dat] for the combined data; and
    [coverage-report/index.html] for the report to browse. *)
Theorem report_paths `{Externals} :
  (forall project st,
     fst (lint project st) = Ok tt ->
     commands_of (added st (snd (lint project st)))
     = [pylint_cmd [Lint.source_directory project]
          (Lint.reports_directory project ++ ["pylint-report.log"])
          (root_directory project ++ [".pylintrc"]);
        pylint_cmd [Lint.tests_directory project]
          (Lint.reports_directory project ++ ["pylint-report-tests.log"])
          (Lint.tests_directory project ++ [".pylintrc"]);
        pycodestyle_cmd project (Lint.reports_directory project ++ ["pycodestyle-report.log"]);
        pydocstyle_cmd project (Lint.reports_directory project ++ ["pydocstyle-report.log"])])
  /\ (forall toolbox c,
        simple_name c ->
        coverage_dat_of toolbox c
        = Tests.reports_directory toolbox ++ ["coverage-" +:+ c +:+ ".dat"]
        /\ coverage_xml toolbox c
           = Tests.reports_directory toolbox ++ ["coverage-" +:+ c +:+ ".xml"]
        /\ temp_copy_of (coverage_dat_of toolbox c)
           = Some (Tests.reports_directory toolbox
                   ++ [replace ".dat" "-copy.dat" ("coverage-" +:+ c +:+ ".dat")]))
  /\ (forall reports,
        temp_copy_of (reports ++ ["coverage-unit.dat"])
        = Some (reports ++ ["coverage-unit-copy.dat"])
        /\ temp_copy_of (reports ++ ["coverage-integration.dat"])
           = Some (reports ++ ["coverage-integration-copy.dat"]))
  /\ (forall toolbox tests name maxfail debug st,
        Tests.tests_directory toolbox = Some tests ->
        In name (test_types toolbox) ->
        In (ERun (pytest_cmd toolbox tests name maxfail debug)
              [("COVERAGE_FILE", str (coverage_dat_of toolbox name))])
           (added st (snd (_run_tests toolbox name maxfail debug st))))
  /\ (forall toolbox,
        coverage_dat_combined toolbox = Tests.reports_directory toolbox ++ ["coverage.dat"]
        /\ coverage_html toolbox = Tests.reports_directory toolbox ++ ["coverage-report"])
  /\ (forall toolbox st,
        fs st !! (Tests.reports_directory toolbox ++ ["coverage-report"; "index.html"]) = None ->
        fst (coverage_open toolbox st) = Raise (ClickExit 1)).
Proof.
  split; [|split; [|split; [|split; [|split]]]].
  - intros project st Hok.
    destruct (lint_trace project st) as (files' & events & n & Hst & Hc & Hn).
    rewrite Hst, added_app, Hc, (Hn Hok). reflexivity.
  - intros toolbox c Hc. unfold coverage_dat_of, coverage_xml.
    rewrite !coverage_file_simple by (exact Hc || reflexivity).
    repeat split. now apply temp_copy_simple.
  - intros reports. split.
    + exact (temp_copy_simple reports "unit" eq_refl).
    + exact (temp_copy_simple reports "integration" eq_refl).
  - intros toolbox tests name maxfail debug st Htests Hin.
    rewrite (run_tests_event _ _ _ _ _ _ Htests Hin). do 2 right. now left.
  - intros toolbox. split.
    + unfold coverage_dat_combined. now rewrite truediv_component.
    + reflexivity.
  - intros toolbox st Hnone.
    cbv [coverage_open bind path_exists].
    assert (Hidx : Tests.reports_directory toolbox </> "coverage-report" </> "index.html"
                   = Tests.reports_directory toolbox ++ ["coverage-report"; "index.html"]).
    { rewrite !truediv_component by reflexivity. now rewrite <- List.app_assoc. }
    rewrite Hidx, Hnone.
    rewrite bool_decide_eq_false_2 by (intros [x Hx]; discriminate). reflexivity.
Qed.

(** C9, on the example projects. *)
Lemma report_paths_witness :
  let X := Demo.externals_of Demo.clean_shell in
  commands_of (added Demo.empty_state (snd (@lint X Demo.project Demo.empty_state)))
  = [pylint_cmd [["src"]] ["reports"; "pylint-report.log"] [".pylintrc"];
     pylint_cmd [["tests"]] ["reports"; "pylint-report-tests.log"] ["tests"; ".pylintrc"];
     pycodestyle_cmd Demo.project ["reports"; "pycodestyle-report.log"];
     pydocstyle_cmd Demo.project ["reports"; "pydocstyle-report.log"]]
  /\ coverage_dat_of Demo.toolbox "unit" = ["reports"; "coverage-unit.dat"]
  /\ fst (@coverage_open X Demo.toolbox Demo.empty_state) = Raise (ClickExit 1).
Proof.
  intros X.
  destruct (@report_paths X) as (Hlint & Hdat & _ & _ & _ & Hopen).
  split; [|split].
  - apply (Hlint Demo.project Demo.empty_state). vm_compute. reflexivity.
  - apply (Hdat Demo.toolbox "unit"). reflexivity.
  - apply (Hopen Demo.toolbox Demo.empty_state). reflexivity.
Defined.

End Reports.

(** * Further properties of the commands *)

(** ** Running the tests of one type: [_run_tests] *)

Module RunTests.
Import PyStr PyStrFacts Pathlib Effects EffectsFacts Utils Tests ReportsSpec Reports.

(** X1. A test type runs only when it is configured and a tests
    directory is: otherwise the body of [_run_tests] returns without a
    header, a child process or any change. When both hold, the body
    prints its header, ensures the reports directory and starts one
    [pytest] process, with [COVERAGE_FILE] set to the data file of the
    test type, and does nothing more, whatever the exit status; the
    files are then what that process left, and the body returns when
    the exit status is 0. What becomes of a non-zero exit status is
    for the decorator [handle_invoke_exceptions], which is not among
    the sources. *)
Theorem run_tests_cases `{Externals} (toolbox : Toolbox) (name : string)
    (maxfail : Z) (debug : bool) (st : state) :
  (~ In name (test_types toolbox) \/ tests_directory toolbox = None ->
   _run_tests toolbox name maxfail debug st = (Ok tt, st))
  /\ (forall tests code out files',
        tests_directory toolbox = Some tests ->
        In name (test_types toolbox) ->
        let cmd := pytest_cmd toolbox tests name maxfail debug in
        let env := [("COVERAGE_FILE", str (coverage_dat_of toolbox name))] in
        shell cmd env (fs st) = (code, out, files') ->
        added st (snd (_run_tests toolbox name maxfail debug st))
        = [EHeader ("️Running " +:+ name +:+ " tests️") None (Some "🔎🐛");
           EEnsureReportsDir (reports_directory toolbox);
           ERun cmd env]
        /\ fs (snd (_run_tests toolbox name maxfail debug st)) = files'
        /\ (code = 0%Z -> fst (_run_tests toolbox name maxfail debug st) = Ok tt)).
Proof.
  split.
  - intros Hskip. unfold _run_tests.
    destruct (tests_directory toolbox) as [tests|]; [|reflexivity].
    destruct Hskip as [Hnot|Hnone]; [|discriminate].
    rewrite bool_decide_eq_false_2; [reflexivity|].
    intros Hin. apply Hnot. now apply list_elem_of_In.
  - intros tests code out files' Htests Hin cmd env Hsh.
    unfold _run_tests. rewrite Htests.
    rewrite bool_decide_eq_true_2 by (now apply list_elem_of_In).
    cbv [bind print_header ensure_reports_dir emit ctx_run ret]; cbn [fs trace].
    fold cmd. fold env. rewrite Hsh.
    destruct (code =? 0)%Z eqn:Hcode; cbn [fst snd fs].
    + split; [|split; [reflexivity|reflexivity]].
      unfold added; cbn [trace]. rewrite <- !List.app_assoc, drop_app_length. reflexivity.
    + apply Z.eqb_neq in Hcode.
      split; [|split; [reflexivity|congruence]].
      unfold added; cbn [trace]. rewrite <- !List.app_assoc, drop_app_length. reflexivity.
Qed.

(** X1, on the example project: end-to-end tests are not configured,
    and the unit tests are run by one child process. *)
Lemma run_tests_cases_witness :
  let X := Demo.externals_of (Demo.constant_shell 0 "") in
  @_run_tests X Demo.toolbox "e2e" 0 false Demo.empty_state = (Ok tt, Demo.empty_state)
  /\ commands_of
       (added Demo.empty_state (snd (@_run_tests X Demo.toolbox "unit" 0 false Demo.empty_state)))
     = [pytest_cmd Demo.toolbox ["tests"] "unit" 0 false]
  /\ fst (@_run_tests X Demo.toolbox "unit" 0 false Demo.empty_state) = Ok tt.
Proof.
  intros X.
  destruct (@run_tests_cases X Demo.toolbox "e2e" 0%Z false Demo.empty_state) as [Hskip _].
  destruct (@run_tests_cases X Demo.toolbox "unit" 0%Z false Demo.empty_state) as [_ Hrun].
  split.
  - apply Hskip. left. intros [Hin|[Hin|[]]]; discriminate Hin.
  - destruct (Hrun ["tests"] 0%Z "" ∅ eq_refl) as (Hadd & _ & Hok).
    + left. reflexivity.
    + reflexivity.
    + split; [now rewrite Hadd | now apply Hok].
Defined.

Lemma str_app_inv_tail (a b s : string) : a +:+ s = b +:+ s -> a = b.
Proof.
  revert b. induction a as [|x a IH]; intros b E.
  - destruct b as [|y b]; [reflexivity|].
    apply (f_equal String.length) in E.
    rewrite str_app_nil_l, str_length_app in E. simpl in E. lia.
  - destruct b as [|y b].
    + apply (f_equal String.length) in E.
      rewrite str_app_nil_l, str_length_app in E. simpl in E. lia.
    + rewrite !str_app_cons in E. injection E as -> E. f_equal. now apply IH.
Qed.

(** X2. Test types named by one path component have data files, and XML
    reports, of their own: two of them never write the same file. *)
Theorem coverage_files_inj (toolbox : Toolbox) (c c' : string) :
  simple_name c -> simple_name c' ->
  (coverage_dat_of toolbox c = coverage_dat_of toolbox c' -> c = c')
  /\ (coverage_xml toolbox c = coverage_xml toolbox c' -> c = c')
  /\ coverage_dat_of toolbox c <> coverage_xml toolbox c'.
Proof.
  intros Hc Hc'. unfold coverage_dat_of, coverage_xml.
  rewrite !coverage_file_simple by (assumption || reflexivity).
  split; [|split].
  - intros E. apply app_inv_head in E. injection E as E.
    apply String.app_inj in E. now apply str_app_inv_tail in E.
  - intros E. apply app_inv_head in E. injection E as E.
    apply String.app_inj in E. now apply str_app_inv_tail in E.
  - intros E. apply app_inv_head in E. injection E as E.
    apply String.app_inj in E.
    assert (Hlen : String.length c = String.length c').
    { apply (f_equal String.length) in E. rewrite !str_length_app in E. simpl in E. lia. }
    assert (Hsuf : forall a b : string, String.length a = String.length b ->
                   a +:+ ".dat" = b +:+ ".xml" -> False).
    { clear. induction a as [|x a IH]; intros [|y b] Hl E; simpl in Hl; try lia.
      - discriminate E.
      - rewrite !str_app_cons in E. injection E as _ E. apply (IH b); [lia | exact E]. }
    exact (Hsuf c c' Hlen E).
Qed.

(** The unit tests and the integration tests. *)
Lemma coverage_files_inj_witness :
  coverage_dat_of Demo.toolbox "unit" <> coverage_dat_of Demo.toolbox "integration".
Proof.
  intros E.
  destruct (coverage_files_inj Demo.toolbox "unit" "integration" eq_refl eq_refl)
    as (Hdat & _ & _).
  discriminate (Hdat E).
Defined.

End RunTests.

(** ** What the search of [_get_total_coverage] returns *)

Module FigureExtras.
Import PyStr PyStrFacts Regex CoverageSpec RegexFacts.

(** X3. What the search returns is never made up: it is a percentage token
    of the output, a non-empty run of digits and dots ended by [%],
    that stands after an occurrence of [TOTAL] with no line feed in
    between. *)
Theorem re_search_is_token (output t : string) :
  re_search output = Some t ->
  is_pct_token t
  /\ exists a m b,
       output = a +:+ "TOTAL" +:+ m +:+ t +:+ b
       /\ str_forall (not_char LF) m = true.
Proof.
  intros Hs. destruct (re_search_sound _ _ Hs) as (a & r & -> & Hl).
  destruct (match_lazy_sound _ _ Hl) as (m & rest & -> & Hm & Htok).
  split; [exact Htok|]. now exists a, m, rest.
Qed.

Lemma re_search_is_token_witness :
  is_pct_token "80%"
  /\ exists a m b,
       Demo.report_text "10      2    80%" = a +:+ "TOTAL" +:+ m +:+ "80%" +:+ b
       /\ str_forall (not_char LF) m = true.
Proof.
  apply (re_search_is_token (Demo.report_text "10      2    80%") "80%").
  reflexivity.
Defined.

Lemma match_here_not_T (c : ascii) (s : string) :
  not_char "T" c = true -> match_here (String c s) = None.
Proof.
  intros Hc. unfold match_here. cbn [strip_prefix].
  unfold not_char in Hc. apply negb_true_iff in Hc.
  rewrite Ascii.eqb_sym in Hc. now rewrite Hc.
Qed.

(** X4. Text without the letter [T] that comes before the rest of the
    output, such as the header row and the rows of the files, is
    passed over: percentages in it are never the result. *)
Theorem re_search_skips_prefix (before output : string) :
  str_forall (not_char "T") before = true ->
  re_search (before +:+ output) = re_search output.
Proof.
  induction before as [|c before IH]; intros Hfree; [reflexivity|].
  simpl in Hfree. apply andb_true_iff in Hfree as [Hc Hfree].
  rewrite str_app_cons, re_search_eq, (match_here_not_T c _ Hc).
  now apply IH.
Qed.

Lemma re_search_skips_prefix_witness :
  re_search (("src/a.py     4      0   100%" +:+ lf) +:+ "TOTAL     10      2    80%")
  = re_search "TOTAL     10      2    80%".
Proof.
  apply (re_search_skips_prefix ("src/a.py     4      0   100%" +:+ lf)).
  reflexivity.
Defined.

(** X5. Text put before the output never turns a figure found into a
    parse error. *)
Theorem re_search_prefix_keeps_match (before output t : string) :
  re_search output = Some t ->
  exists t', re_search (before +:+ output) = Some t'.
Proof.
  intros Hs. destruct (re_search_sound _ _ Hs) as (a & r & -> & Hl).
  rewrite <- str_app_assoc. now apply re_search_complete with (t := t).
Qed.

Lemma re_search_prefix_keeps_match_witness :
  exists t', re_search ("SUBTOTAL 50%" +:+ lf +:+ "TOTAL 80%") = Some t'.
Proof.
  apply (re_search_prefix_keeps_match ("SUBTOTAL 50%" +:+ lf) "TOTAL 80%" "80%").
  reflexivity.
Defined.

End FigureExtras.

(** ** One turn of the loop of [coverage_report] *)

Module StepExtras.
Import PyStr PyStrFacts Pathlib Effects EffectsFacts Utils Regex Tests.
Import AggregationSpec ReportsSpec Aggregation Reports.

Lemma replace_fuel_length_ge (old new : string) (fuel : nat) :
  String.length old <= String.length new ->
  forall s, String.length s <= String.length (replace_fuel fuel old new s).
Proof.
  intros Hlen. induction fuel as [|fuel IH]; intros s; [reflexivity|].
  simpl. destruct (strip_prefix old s) as [r|] eqn:Hstrip.
  - apply strip_prefix_Some in Hstrip. subst s.
    rewrite !str_length_app. specialize (IH r). lia.
  - destruct s as [|c r]; [reflexivity|]. simpl. specialize (IH r). lia.
Qed.

(** Replacing a text by a longer one in a string that ends with it
    makes the string longer. *)
Lemma replace_fuel_grows (old new : string) :
  old <> "" -> String.length old < String.length new ->
  forall fuel a,
    String.length (a +:+ old) <= fuel ->
    String.length (a +:+ old) < String.length (replace_fuel fuel old new (a +:+ old)).
Proof.
  intros Hold Hlen. induction fuel as [|fuel IH]; intros a Hfuel.
  - rewrite str_length_app in Hfuel. destruct old; [congruence | simpl in Hfuel; lia].
  - simpl. destruct (strip_prefix old (a +:+ old)) as [r|] eqn:Hstrip.
    + pose proof Hstrip as Hs. apply strip_prefix_Some in Hs. rewrite Hs at 1.
      rewrite !str_length_app.
      pose proof (replace_fuel_length_ge old new fuel (Nat.lt_le_incl _ _ Hlen) r). lia.
    + destruct a as [|c a].
      * rewrite str_app_nil_l in Hstrip.
        rewrite <- (str_app_nil_r old) in Hstrip at 2.
        rewrite strip_prefix_app in Hstrip. discriminate.
      * rewrite str_app_cons. simpl. rewrite str_app_cons in Hfuel. simpl in Hfuel.
        specialize (IH a). lia.
Qed.

(** The temporary copy of a data file is another file. *)
Lemma temp_name_differs (reports : Path) (c : string) :
  reports ++ [replace ".dat" "-copy.dat" ("coverage-" +:+ c +:+ ".dat")]
  <> reports ++ ["coverage-" +:+ c +:+ ".dat"].
Proof.
  intros E. apply app_inv_head in E.
  assert (E' : replace ".dat" "-copy.dat" ("coverage-" +:+ c +:+ ".dat")
               = "coverage-" +:+ c +:+ ".dat") by congruence.
  apply (f_equal String.length) in E'. unfold replace in E'.
  pose proof (replace_fuel_grows ".dat" "-copy.dat") as Hgrow.
  specialize (Hgrow ltac:(discriminate) ltac:(simpl; lia)
                (String.length ("coverage-" +:+ c +:+ ".dat")) ("coverage-" +:+ c)).
  rewrite str_app_assoc in Hgrow. specialize (Hgrow (le_n _)). lia.
Qed.

(** X6. A test type named by one path component whose data file is there
    and whose report has a [TOTAL] row is always copied: its turn of
    the loop ends well, prints the figure, copies the data file to its
    [-copy] name and adds that name to the list; the copy never fails
    on the name. *)
Theorem step_present_ok `{Externals} (toolbox : Toolbox) (files : list string)
    (c : string) (st : state) (out total text : string)
    (files1 : gmap (list string) string) :
  simple_name c ->
  is_Some (fs st !! coverage_dat_of toolbox c) ->
  shell (coverage_report_cmd (coverage_dat_of toolbox c)) [] (fs st) = (0%Z, out, files1) ->
  re_search out = Some total ->
  files1 !! coverage_dat_of toolbox c = Some text ->
  let temp_copy :=
    reports_directory toolbox ++ [replace ".dat" "-copy.dat" ("coverage-" +:+ c +:+ ".dat")] in
  coverage_report_step toolbox files c st
  = (Ok (files ++ [str temp_copy]),
     mkState (<[temp_copy := text]> files1)
       (trace st ++ [ERun (coverage_report_cmd (coverage_dat_of toolbox c)) [];
                     EPrint (title c +:+ " test coverage: " +:+ total);
                     ECopy (coverage_dat_of toolbox c) temp_copy])).
Proof.
  intros Hc Hdat Hsh Hre Htext temp_copy.
  cbv [coverage_report_step bind path_exists].
  rewrite bool_decide_eq_true_2 by exact Hdat.
  cbv [negb _get_total_coverage bind ctx_run ret print emit raise]; cbn [fs trace].
  rewrite Hsh. cbn [Z.eqb]. rewrite Hre. cbn [fs trace].
  assert (Hpath : coverage_dat_of toolbox c
                  = reports_directory toolbox ++ ["coverage-" +:+ c +:+ ".dat"]).
  { unfold coverage_dat_of. now apply coverage_file_simple. }
  rewrite Hpath in *. rewrite (temp_copy_simple _ _ Hc). fold temp_copy.
  cbv [shutil_copy]; cbn [fs trace]. rewrite Htext.
  destruct (decide (reports_directory toolbox ++ ["coverage-" +:+ c +:+ ".dat"] = temp_copy))
    as [Heq|Hne].
  - exfalso. symmetry in Heq. now apply temp_name_differs in Heq.
  - now rewrite <- !List.app_assoc.
Qed.

Lemma step_present_ok_witness :
  let X := Demo.externals_of Demo.coverage_shell in
  @coverage_report_step X Demo.toolbox [] "unit" Demo.both_present
  = (Ok ["reports/coverage-unit-copy.dat"],
     mkState (<[ ["reports"; "coverage-unit-copy.dat"] := "unit data" ]> (fs Demo.both_present))
       [ERun (coverage_report_cmd ["reports"; "coverage-unit.dat"]) [];
        EPrint "Unit test coverage: 80%";
        ECopy ["reports"; "coverage-unit.dat"] ["reports"; "coverage-unit-copy.dat"]]).
Proof.
  intros X.
  apply (@step_present_ok X Demo.toolbox [] "unit" Demo.both_present
           (Demo.report_text "10      2    80%") "80%" "unit data" (fs Demo.both_present)).
  - reflexivity.
  - exists "unit data". reflexivity.
  - reflexivity.
  - reflexivity.
  - reflexivity.
Defined.

(** X7. What a turn of the loop that ends well writes: nothing when the
    data file is absent; otherwise the copy alone, which holds what the
    data file holds, the data file and every other file being as the
    coverage tool left them. *)
Theorem step_writes_only_copy `{Externals} (toolbox : Toolbox) (files files' : list string)
    (c : string) (st st' : state) :
  coverage_report_step toolbox files c st = (Ok files', st') ->
  (fs st !! coverage_dat_of toolbox c = None -> fs st' = fs st)
  /\ (is_Some (fs st !! coverage_dat_of toolbox c) ->
      let left := snd (shell (coverage_report_cmd (coverage_dat_of toolbox c)) [] (fs st)) in
      exists temp_copy,
        temp_copy_of (coverage_dat_of toolbox c) = Some temp_copy
        /\ temp_copy <> coverage_dat_of toolbox c
        /\ is_Some (left !! coverage_dat_of toolbox c)
        /\ fs st' !! temp_copy = left !! coverage_dat_of toolbox c
        /\ fs st' !! coverage_dat_of toolbox c = left !! coverage_dat_of toolbox c
        /\ forall p, p <> temp_copy -> fs st' !! p = left !! p).
Proof.
  intros Hstep.
  destruct (step_Ok _ _ _ _ _ _ Hstep) as
    [(Hdat & -> & ->) | (t & out & files1 & total & text & Hdat & Hsh & Hre & Ht & Hne & Htext & -> & ->)].
  - split; [reflexivity|]. intros [x Hx]. congruence.
  - split; [intros Hnone; destruct Hdat as [x Hx]; congruence|].
    intros _ left. subst left. rewrite Hsh. cbn [snd fs].
    exists t. split; [exact Ht|]. split; [exact Hne|]. split; [eauto|].
    split; [now rewrite lookup_insert_eq|].
    split; [now rewrite lookup_insert_ne|].
    intros p Hp. now rewrite lookup_insert_ne.
Qed.

Lemma step_writes_only_copy_witness :
  let X := Demo.externals_of Demo.coverage_shell in
  fs (snd (@coverage_report_step X Demo.toolbox [] "unit" Demo.unit_absent))
  = fs Demo.unit_absent.
Proof.
  intros X.
  destruct (@step_writes_only_copy X Demo.toolbox [] [] "unit" Demo.unit_absent
              (snd (@coverage_report_step X Demo.toolbox [] "unit" Demo.unit_absent)))
    as [Habsent _].
  - vm_compute. reflexivity.
  - apply Habsent. reflexivity.
Defined.

End StepExtras.

(** ** Failures in [coverage_report] *)

Module AbortExtras.
Import PyStr PyStrFacts Pathlib Effects EffectsFacts Utils Regex Tests.
Import AggregationSpec TraceSpec Aggregation.

Lemma step_fails `{Externals} (toolbox : Toolbox) (files : list string) (c : string)
    (st : state) (code : Z) (out : string) (files1 : gmap (list string) string) :
  is_Some (fs st !! coverage_dat_of toolbox c) ->
  shell (coverage_report_cmd (coverage_dat_of toolbox c)) [] (fs st) = (code, out, files1) ->
  code <> 0%Z \/ re_search out = None ->
  coverage_report_step toolbox files c st
  = (Raise (report_failure (coverage_report_cmd (coverage_dat_of toolbox c)) code out),
     mkState files1 (trace st ++ [ERun (coverage_report_cmd (coverage_dat_of toolbox c)) []])).
Proof.
  intros Hdat Hsh Hbad.
  cbv [coverage_report_step bind path_exists].
  rewrite bool_decide_eq_true_2 by exact Hdat.
  cbv [negb _get_total_coverage bind ctx_run ret raise report_failure]; cbn [fs trace].
  rewrite Hsh. destruct (code =? 0)%Z eqn:Hcode; [|reflexivity].
  apply Z.eqb_eq in Hcode. destruct Hbad as [Hne|Hre]; [congruence|].
  now rewrite Hre.
Qed.

Lemma loop_absent_prefix `{Externals} (toolbox : Toolbox) (before rest : list string) :
  forall (files : list string) (st : state),
  (forall b, In b before -> fs st !! coverage_dat_of toolbox b = None) ->
  coverage_report_loop toolbox files (before ++ rest) st
  = coverage_report_loop toolbox files rest
      (mkState (fs st)
         (trace st ++
          map (fun b => ESecho (missing_dat_warning b (coverage_dat_of toolbox b)) "yellow")
            before)).
Proof.
  induction before as [|b before IH]; intros files st Habs.
  - simpl. rewrite app_nil_r. now destruct st.
  - cbn [app]. rewrite loop_cons, step_absent by (apply Habs; now left).
    rewrite IH by (intros b' Hb'; apply Habs; now right).
    cbn [fs trace map]. now rewrite <- List.app_assoc.
Qed.

(** X8. At the first test type whose data file is there and whose
    coverage report fails, by a non-zero exit status or by an output
    with no [TOTAL] row, the body of [coverage_report] stops: after
    the warnings of the absent test types before it and the one child
    process of that report, nothing is copied, the test types after it
    are not looked at, and the combine step is not run. The files are
    those that the child process left. *)
Theorem coverage_report_aborts `{Externals} (toolbox : Toolbox) (st : state)
    (before rest : list string) (c : string) (code : Z) (out : string)
    (files1 : gmap (list string) string) :
  test_types toolbox = before ++ c :: rest ->
  (forall b, In b before -> fs st !! coverage_dat_of toolbox b = None) ->
  is_Some (fs st !! coverage_dat_of toolbox c) ->
  shell (coverage_report_cmd (coverage_dat_of toolbox c)) [] (fs st) = (code, out, files1) ->
  code <> 0%Z \/ re_search out = None ->
  let cmd := coverage_report_cmd (coverage_dat_of toolbox c) in
  let events := added st (snd (coverage_report toolbox st)) in
  events
  = [EHeader "Generating coverage report" None (Some "📃");
     EEnsureReportsDir (reports_directory toolbox)]
    ++ map (fun b => ESecho (missing_dat_warning b (coverage_dat_of toolbox b)) "yellow")
         before
    ++ [ERun cmd []]
  /\ commands_of events = [cmd]
  /\ copies_of events = []
  /\ fs (snd (coverage_report toolbox st)) = files1.
Proof.
  intros Htypes Habs Hdat Hsh Hbad cmd events. subst events.
  assert (Hrun : coverage_report toolbox st
    = (Raise (report_failure cmd code out),
       mkState files1
         (trace (loop_start toolbox st)
          ++ map (fun b => ESecho (missing_dat_warning b (coverage_dat_of toolbox b)) "yellow")
               before
          ++ [ERun cmd []]))).
  { rewrite coverage_report_eq, Htypes, loop_absent_prefix by exact Habs.
    rewrite loop_cons, (step_fails toolbox [] c _ code out files1); try assumption.
    cbn [fs trace]. now rewrite <- List.app_assoc. }
  rewrite Hrun. cbn [snd fs loop_start trace].
  rewrite <- !List.app_assoc. rewrite added_app.
  split; [reflexivity|].
  rewrite !commands_of_app, !copies_of_app. cbn [commands_of copies_of app].
  assert (Hw : forall l : list string,
            commands_of (map (fun b => ESecho (missing_dat_warning b (coverage_dat_of toolbox b))
                                         "yellow") l) = []
            /\ copies_of (map (fun b => ESecho (missing_dat_warning b (coverage_dat_of toolbox b))
                                          "yellow") l) = []).
  { induction l as [|x l [IH1 IH2]]; [split; reflexivity | split; assumption]. }
  destruct (Hw before) as [-> ->]. repeat split; reflexivity.
Qed.

(** X8, on the example: the coverage tool prints a header and no
    [TOTAL] row. *)
Lemma coverage_report_aborts_witness :
  let X := Demo.externals_of (Demo.constant_shell 0 "Name   Stmts   Miss") in
  let events :=
    added Demo.both_present (snd (@coverage_report X Demo.toolbox Demo.both_present)) in
  commands_of events = [coverage_report_cmd ["reports"; "coverage-unit.dat"]]
  /\ copies_of events = [].
Proof.
  intros X events.
  destruct (@coverage_report_aborts X Demo.toolbox Demo.both_present [] ["integration"]
              "unit" 0%Z "Name   Stmts   Miss" (fs Demo.both_present))
    as (_ & Hcmds & Hcopies & _).
  - reflexivity.
  - intros b [].
  - exists "unit data". reflexivity.
  - reflexivity.
  - right. reflexivity.
  - split; [exact Hcmds | exact Hcopies].
Defined.

End AbortExtras.

(** ** Failures and sub-runs of the lint checks *)

Module LintExtras.
Import PyStr Pathlib Effects EffectsFacts Utils Lint LintSpec LintFacts.

Lemma run_pylint_raise `{Externals} (project : Project) (source_dirs : list Path)
    (report_path pylintrc_fpath : Path) (st : state) (e : exn) :
  fst (run_pylint project source_dirs report_path pylintrc_fpath st) = Raise e ->
  exists code,
    e = UnexpectedExit (pylint_cmd source_dirs report_path pylintrc_fpath) code
    /\ code <> 0%Z.
Proof.
  rewrite run_pylint_eq. cbv zeta.
  destruct (shell _ [] (fs st)) as [[code out] files'].
  destruct (code =? 0)%Z eqn:Hcode; [discriminate|].
  apply Z.eqb_neq in Hcode.
  destruct (files' !! report_path); intros [= <-]; now exists code.
Qed.

Lemma outcome_of_raise (cmd : string) (code : Z) (e : exn) :
  outcome_of cmd code = Raise e -> e = UnexpectedExit cmd code /\ code <> 0%Z.
Proof.
  unfold outcome_of. destruct (code =? 0)%Z eqn:Hcode; [discriminate|].
  apply Z.eqb_neq in Hcode. now intros [= <-].
Qed.

Lemma lint_pycodestyle_raise `{Externals} (project : Project) (st : state) (e : exn) :
  fst (lint_pycodestyle project st) = Raise e ->
  exists code,
    e = UnexpectedExit
          (pycodestyle_cmd project (reports_directory project </> "pycodestyle-report.log"))
          code
    /\ code <> 0%Z.
Proof.
  rewrite lint_pycodestyle_eq. cbv zeta.
  destruct (shell _ [] (fs st)) as [[code out] files'].
  destruct (files' !! _); cbn [fst]; intros He;
    apply outcome_of_raise in He; now exists code.
Qed.

Lemma lint_pydocstyle_raise `{Externals} (project : Project) (st : state) (e : exn) :
  fst (lint_pydocstyle project st) = Raise e ->
  exists code,
    e = UnexpectedExit
          (pydocstyle_cmd project (reports_directory project </> "pydocstyle-report.log"))
          code
    /\ code <> 0%Z.
Proof.
  rewrite lint_pydocstyle_eq. cbv zeta.
  destruct (shell _ [] (fs st)) as [[code out] files'].
  destruct (files' !! _); cbn [fst]; intros He;
    apply outcome_of_raise in He; now exists code.
Qed.

(** X9. The lint pipeline fails in one way only: with the [UnexpectedExit]
    of one of its four child processes, whose exit status is not 0.
    Showing the report never puts another failure in its place. *)
Theorem lint_fails_only_with_tool `{Externals} (project : Project) (st : state) (e : exn) :
  fst (lint project st) = Raise e ->
  exists cmd code,
    e = UnexpectedExit cmd code /\ code <> 0%Z /\ In cmd (lint_commands project).
Proof.
  rewrite lint_eq, lint_pylint_eq.
  destruct (run_pylint project [source_directory project] _ _ _) as [[u1|e1] s1] eqn:R1.
  - destruct (run_pylint project [tests_directory project] _ _ s1) as [[u2|e2] s2] eqn:R2.
    + destruct (lint_pycodestyle project s2) as [[u3|e3] s3] eqn:R3.
      * intros He. destruct (lint_pydocstyle_raise project s3 e He) as (code & -> & Hc).
        do 2 eexists. split; [reflexivity|]. split; [exact Hc|]. do 3 right. now left.
      * cbn [fst]. intros [= <-].
        destruct (lint_pycodestyle_raise project s2 e3) as (code & -> & Hc);
          [now rewrite R3|].
        do 2 eexists. split; [reflexivity|]. split; [exact Hc|]. do 2 right. now left.
    + cbn [fst]. intros [= <-].
      match type of R2 with
      | run_pylint ?p ?d ?r ?c ?s = _ => pose proof (run_pylint_raise p d r c s e2) as Hr
      end.
      rewrite R2 in Hr. destruct (Hr eq_refl) as (code & -> & Hc).
      do 2 eexists. split; [reflexivity|]. split; [exact Hc|]. right. now left.
  - cbn [fst]. intros [= <-].
    match type of R1 with
    | run_pylint ?p ?d ?r ?c ?s = _ => pose proof (run_pylint_raise p d r c s e1) as Hr
    end.
    rewrite R1 in Hr. destruct (Hr eq_refl) as (code & -> & Hc).
    do 2 eexists. split; [reflexivity|]. split; [exact Hc|]. now left.
Qed.

Lemma lint_fails_only_with_tool_witness :
  exists cmd code,
    UnexpectedExit "pylint --rcfile .pylintrc src > reports/pylint-report.log" 16
    = UnexpectedExit cmd code
    /\ code <> 0%Z /\ In cmd (lint_commands Demo.project).
Proof.
  apply (@lint_fails_only_with_tool (Demo.externals_of Demo.pylint_fails_shell)
           Demo.project Demo.empty_state).
  vm_compute. reflexivity.
Defined.

(** X10. The static analysis of the tests tree is run exactly when that of
    the source tree ends with the exit status 0. When the first run
    fails, [lint_pylint] ends with its failure after one child process;
    otherwise it ends as the second run does, after two. The files are
    those that the last child process left. *)
Theorem lint_pylint_subruns `{Externals} (project : Project) (st : state)
    (code1 : Z) (out1 : string) (files1 : gmap (list string) string) :
  let c1 := pylint_cmd [source_directory project]
              (reports_directory project </> "pylint-report.log")
              (root_directory project </> ".pylintrc") in
  let c2 := pylint_cmd [tests_directory project]
              (reports_directory project </> "pylint-report-tests.log")
              (tests_directory project </> ".pylintrc") in
  shell c1 [] (fs st) = (code1, out1, files1) ->
  (code1 <> 0%Z ->
   fst (lint_pylint project st) = Raise (UnexpectedExit c1 code1)
   /\ commands_of (added st (snd (lint_pylint project st))) = [c1]
   /\ fs (snd (lint_pylint project st)) = files1)
  /\ (code1 = 0%Z ->
      forall code2 out2 files2,
        shell c2 [] files1 = (code2, out2, files2) ->
        fst (lint_pylint project st) = outcome_of c2 code2
        /\ commands_of (added st (snd (lint_pylint project st))) = [c1; c2]
        /\ fs (snd (lint_pylint project st)) = files2).
Proof.
  intros c1 c2 Hsh1. split.
  - intros Hcode. apply Z.eqb_neq in Hcode.
    rewrite lint_pylint_eq, run_pylint_eq. cbv zeta. cbn [fs]. fold c1.
    rewrite Hsh1, Hcode.
    destruct (files1 !! _); cbn [fst snd fs]; (split; [reflexivity|]);
      (split; [|reflexivity]);
      unfold added; cbn [trace]; rewrite <- !List.app_assoc, drop_app_length; reflexivity.
  - intros -> code2 out2 files2 Hsh2.
    rewrite lint_pylint_eq, run_pylint_eq. cbv zeta. cbn [fs]. fold c1.
    rewrite Hsh1. cbn [Z.eqb]. rewrite run_pylint_eq. cbv zeta. cbn [fs]. fold c2.
    rewrite Hsh2. unfold outcome_of.
    destruct (code2 =? 0)%Z; [|destruct (files2 !! _)]; cbn [fst snd fs];
      (split; [reflexivity|]); (split; [|reflexivity]);
      unfold added; cbn [trace]; rewrite <- !List.app_assoc, drop_app_length; reflexivity.
Qed.

Lemma lint_pylint_subruns_witness :
  let X := Demo.externals_of Demo.pylint_fails_shell in
  commands_of (added Demo.empty_state (snd (@lint_pylint X Demo.project Demo.empty_state)))
  = ["pylint --rcfile .pylintrc src > reports/pylint-report.log"].
Proof.
  intros X.
  destruct (@lint_pylint_subruns X Demo.project Demo.empty_state 16%Z ""
              (<[ ["reports"; "pylint-report.log"] := Demo.pylint_finding ]> ∅))
    as [Hfail _].
  - vm_compute. reflexivity.
  - destruct Hfail as (_ & Hcmds & _); [discriminate|]. exact Hcmds.
Defined.

End LintExtras.

(** ** The reports directory is ensured before a tool writes to it *)

Module EnsureExtras.
Import PyStr Pathlib Effects EffectsFacts Utils Regex Lint Tests.
Import LintSpec TraceSpec LintFacts Aggregation.

Lemma ensured_true (events : list event) : ensured_before_run true events = true.
Proof. induction events as [|e events IH]; [reflexivity|]. now destruct e. Qed.

Lemma ensured_app (b : bool) (first second : list event) :
  ensured_before_run b first = true ->
  (forall b', ensured_before_run b' second = true) ->
  ensured_before_run b (first ++ second) = true.
Proof.
  revert b. induction first as [|e first IH]; intros b Hfirst Hsecond.
  - apply Hsecond.
  - destruct e; simpl in *; try (now apply IH).
    apply andb_true_iff in Hfirst as [-> Hfirst]. now apply IH.
Qed.

Section Facts.
Context `{Externals}.

Lemma run_pylint_ensures (project : Project) (source_dirs : list Path)
    (report_path pylintrc_fpath : Path) (st : state) :
  exists files' events,
    snd (run_pylint project source_dirs report_path pylintrc_fpath st)
    = mkState files' (trace st ++ events)
    /\ forall b, ensured_before_run b events = true.
Proof.
  rewrite run_pylint_eq. cbv zeta.
  destruct (shell _ [] (fs st)) as [[code out] files'].
  destruct (code =? 0)%Z; [|destruct (files' !! report_path)];
    do 2 eexists; (split; [reflexivity | intros b; reflexivity]).
Qed.

Lemma lint_pycodestyle_ensures (project : Project) (st : state) :
  exists files' events,
    snd (lint_pycodestyle project st) = mkState files' (trace st ++ events)
    /\ forall b, ensured_before_run b events = true.
Proof.
  rewrite lint_pycodestyle_eq. cbv zeta.
  destruct (shell _ [] (fs st)) as [[code out] files'].
  destruct (files' !! _); do 2 eexists; (split; [reflexivity | intros b; reflexivity]).
Qed.

Lemma lint_pydocstyle_ensures (project : Project) (st : state) :
  exists files' events,
    snd (lint_pydocstyle project st) = mkState files' (trace st ++ events)
    /\ forall b, ensured_before_run b events = true.
Proof.
  rewrite lint_pydocstyle_eq. cbv zeta.
  destruct (shell _ [] (fs st)) as [[code out] files'].
  destruct (files' !! _); do 2 eexists; (split; [reflexivity | intros b; reflexivity]).
Qed.

Lemma lint_pylint_ensures (project : Project) (st : state) :
  exists files' events,
    snd (lint_pylint project st) = mkState files' (trace st ++ events)
    /\ forall b, ensured_before_run b events = true.
Proof.
  rewrite lint_pylint_eq.
  destruct (run_pylint_ensures project [Lint.source_directory project]
              (Lint.reports_directory project </> "pylint-report.log")
              (root_directory project </> ".pylintrc")
              (mkState (fs st) (trace st ++ [EHeader "pylint" (Some 2) None])))
    as (files1 & ev1 & Hst1 & He1).
  destruct (run_pylint project [Lint.source_directory project] _ _ _) as [[u1|e1] st1];
    simpl in Hst1; subst st1.
  - destruct (run_pylint_ensures project [Lint.tests_directory project]
                (Lint.reports_directory project </> "pylint-report-tests.log")
                (Lint.tests_directory project </> ".pylintrc")
                (mkState files1 ((trace st ++ [EHeader "pylint" (Some 2) None]) ++ ev1)))
      as (files2 & ev2 & Hst2 & He2).
    exists files2, ([EHeader "pylint" (Some 2) None] ++ ev1 ++ ev2).
    split; [rewrite Hst2; same_trace|].
    intros b. cbn [app ensured_before_run]. now apply ensured_app.
  - exists files1, ([EHeader "pylint" (Some 2) None] ++ ev1).
    split; [cbn [snd]; same_trace|].
    intros b. cbn [app ensured_before_run]. apply He1.
Qed.

Lemma lint_ensures (project : Project) (st : state) :
  exists files' events,
    snd (lint project st) = mkState files' (trace st ++ events)
    /\ forall b, ensured_before_run b events = true.
Proof.
  rewrite lint_eq.
  destruct (lint_pylint_ensures project
              (mkState (fs st) (trace st ++ [EHeader "Linting" None (Some "🔎")])))
    as (files1 & ev1 & Hst1 & He1).
  destruct (lint_pylint project _) as [[u1|e1] st1]; simpl in Hst1; subst st1.
  - destruct (lint_pycodestyle_ensures project
                (mkState files1 ((trace st ++ [EHeader "Linting" None (Some "🔎")]) ++ ev1)))
      as (files2 & ev2 & Hst2 & He2).
    destruct (lint_pycodestyle project _) as [[u2|e2] st2]; simpl in Hst2; subst st2.
    + destruct (lint_pydocstyle_ensures project
                  (mkState files2
                     (((trace st ++ [EHeader "Linting" None (Some "🔎")]) ++ ev1) ++ ev2)))
        as (files3 & ev3 & Hst3 & He3).
      exists files3, ([EHeader "Linting" None (Some "🔎")] ++ ev1 ++ ev2 ++ ev3).
      split; [rewrite Hst3; same_trace|].
      intros b. cbn [app ensured_before_run].
      apply ensured_app; [apply He1|]. intros b'. now apply ensured_app.
    + exists files2, ([EHeader "Linting" None (Some "🔎")] ++ ev1 ++ ev2).
      split; [cbn [snd]; same_trace|].
      intros b. cbn [app ensured_before_run]. now apply ensured_app.
  - exists files1, ([EHeader "Linting" None (Some "🔎")] ++ ev1).
    split; [cbn [snd]; same_trace|].
    intros b. cbn [app ensured_before_run]. apply He1.
Qed.

(** Whatever its outcome, a turn of the loop of [coverage_report] only
    adds events. *)
Lemma step_extends (toolbox : Toolbox) (files : list string) (c : string) (st : state) :
  exists files' events,
    snd (coverage_report_step toolbox files c st) = mkState files' (trace st ++ events).
Proof.
  cbv [coverage_report_step bind path_exists].
  destruct (bool_decide (is_Some (fs st !! coverage_dat_of toolbox c))).
  - cbv [negb _get_total_coverage bind ctx_run ret print emit raise]; cbn [fs trace].
    destruct (shell _ [] (fs st)) as [[code out] files1].
    destruct (code =? 0)%Z; [|do 2 eexists; reflexivity].
    destruct (re_search out) as [total|]; [|do 2 eexists; reflexivity].
    cbn [fs trace].
    destruct (temp_copy_of (coverage_dat_of toolbox c)) as [temp_copy|];
      [|do 2 eexists; cbn [snd]; same_trace].
    cbv [shutil_copy]; cbn [fs trace].
    destruct (files1 !! coverage_dat_of toolbox c) as [text|];
      [|do 2 eexists; cbn [snd]; same_trace].
    destruct (decide (coverage_dat_of toolbox c = temp_copy));
      do 2 eexists; cbn [snd]; same_trace.
  - cbv [negb secho emit ret]. do 2 eexists. reflexivity.
Qed.

Lemma loop_extends (toolbox : Toolbox) (cats : list string) :
  forall (files : list string) (st : state),
  exists files' events,
    snd (coverage_report_loop toolbox files cats st) = mkState files' (trace st ++ events).
Proof.
  induction cats as [|c rest IH]; intros files st.
  - exists (fs st), []. rewrite app_nil_r. now destruct st.
  - rewrite loop_cons.
    destruct (step_extends toolbox files c st) as (files1 & ev1 & Hst1).
    destruct (coverage_report_step toolbox files c st) as [[files2|e] st1];
      simpl in Hst1; subst st1.
    + destruct (IH files2 (mkState files1 (trace st ++ ev1))) as (files3 & ev2 & Hst2).
      exists files3, (ev1 ++ ev2). rewrite Hst2. same_trace.
    + now exists files1, ev1.
Qed.

Lemma coverage_report_extends (toolbox : Toolbox) (st : state) :
  exists files' events,
    snd (coverage_report toolbox st)
    = mkState files'
        (trace st ++ [EHeader "Generating coverage report" None (Some "📃");
                      EEnsureReportsDir (Tests.reports_directory toolbox)] ++ events).
Proof.
  rewrite coverage_report_eq.
  destruct (loop_extends toolbox (test_types toolbox) [] (loop_start toolbox st))
    as (files1 & ev1 & Hst1).
  destruct (coverage_report_loop toolbox [] (test_types toolbox) (loop_start toolbox st))
    as [[files|e] st_l]; simpl in Hst1; subst st_l.
  - cbv zeta. cbn [fs trace].
    destruct (shell _ [] files1) as [[code out_c] files_c].
    destruct (code =? 0)%Z; [|do 2 eexists; cbn [snd]; same_trace].
    cbv [_get_total_coverage bind ctx_run ret raise]; cbn [fs trace].
    destruct (shell _ [] files_c) as [[code' out] files_r].
    destruct (code' =? 0)%Z; [|do 2 eexists; cbn [snd]; same_trace].
    destruct (re_search out); do 2 eexists; cbn [snd]; same_trace.
  - do 2 eexists. cbn [snd]. same_trace.
Qed.

End Facts.

(** X11. No command starts a child process before it has ensured the
    reports directory, whatever the tools do: the lint pipeline and
    each of its three checks, the run of the tests of one type, and
    the coverage report. *)
Theorem reports_dir_ensured_first `{Externals} :
  (forall project st,
     ensured_before_run false (added st (snd (lint project st))) = true)
  /\ (forall project st,
        ensured_before_run false (added st (snd (lint_pylint project st))) = true)
  /\ (forall project st,
        ensured_before_run false (added st (snd (lint_pycodestyle project st))) = true)
  /\ (forall project st,
        ensured_before_run false (added st (snd (lint_pydocstyle project st))) = true)
  /\ (forall toolbox name maxfail debug st,
        ensured_before_run false
          (added st (snd (_run_tests toolbox name maxfail debug st))) = true)
  /\ (forall toolbox st,
        ensured_before_run false (added st (snd (coverage_report toolbox st))) = true).
Proof.
  split; [|split; [|split; [|split; [|split]]]].
  - intros project st. destruct (lint_ensures project st) as (f & ev & -> & He).
    rewrite added_app. apply He.
  - intros project st. destruct (lint_pylint_ensures project st) as (f & ev & -> & He).
    rewrite added_app. apply He.
  - intros project st. destruct (lint_pycodestyle_ensures project st) as (f & ev & -> & He).
    rewrite added_app. apply He.
  - intros project st. destruct (lint_pydocstyle_ensures project st) as (f & ev & -> & He).
    rewrite added_app. apply He.
  - intros toolbox name maxfail debug st. unfold _run_tests.
    destruct (Tests.tests_directory toolbox) as [tests|];
      [|unfold added, ret; cbn [snd]; now rewrite drop_all].
    destruct (bool_decide (name ∈ test_types toolbox));
      [|unfold added, ret; cbn [snd]; now rewrite drop_all].
    cbv [bind print_header ensure_reports_dir emit ctx_run ret]; cbn [fs trace].
    destruct (shell _ _ (fs st)) as [[code out] files'].
    destruct (code =? 0)%Z; cbn [snd]; rewrite <- !List.app_assoc, added_app; reflexivity.
  - intros toolbox st. destruct (coverage_report_extends toolbox st) as (f & ev & ->).
    rewrite added_app. cbn [app ensured_before_run]. apply ensured_true.
Qed.

End EnsureExtras.
